(** * The SSE client and the session controller of the finance front end

    A shallow embedding of the API client [lib/api.ts] (the two streaming
    generators, [checkHealth], [askQuestion]; its text follows the
    interfaces of [lib/types.ts]), of [context/SessionContext.tsx] (the
    session provider) and of the insight request of [components/Layout.tsx],
    followed by the properties the specification states about them.

    Conventions.
    - A JavaScript string is the list of its UTF-16 code units ([list N]).
    - A [Uint8Array] chunk is a [list byte].
    - [TextDecoder], [JSON.parse] and [fetch] belong to the platform, not to
      the repository.  [TextDecoder] is modelled after the WHATWG Encoding
      Standard (UTF-8 decoder, replacement error mode, BOM stripping, no
      flush under [{stream: true}]).  The generators are parametric in
      [JSON.parse]; a concrete parser for the JSON grammar is supplied for
      the worked examples.
    - A generator is modelled by the trace of what it does, in order (the
      values it yields and the diagnostics it logs), and by how it ends,
      as a function of the response [fetch] resolved to.  A body is the
      finite list of chunks its reader delivers before it reports [done];
      a [fetch] or a [read] that rejects is outside the model. *)

From Stdlib Require Import List NArith Lia Bool.
From Stdlib.Strings Require Import String Ascii Byte.
From Stdlib.Numbers Require DecimalString.
Import ListNotations.

#[global] Set Warnings "-register-all".

(* ================================================================== *)
(** ** JavaScript strings *)
(* ================================================================== *)

Module JS.
Local Open Scope N_scope.

Definition jsstring := list N.

(** An ASCII literal of the source, as a JavaScript string. *)
Definition lit (s : string) : jsstring :=
  map N_of_ascii (list_ascii_of_string s).

(** [a === b] on strings. *)
Fixpoint str_eqb (a b : jsstring) : bool :=
  match a, b with
  | [], [] => true
  | x :: a', y :: b' => (x =? y) && str_eqb a' b'
  | _, _ => false
  end.

(** [s.startsWith(prefix)] *)
Fixpoint startsWith (s prefix : jsstring) {struct prefix} : bool :=
  match prefix, s with
  | [], _ => true
  | p :: prefix', c :: s' => (c =? p) && startsWith s' prefix'
  | _ :: _, [] => false
  end.

(** [s.slice(n)] for [0 <= n]. *)
Definition slice (s : jsstring) (n : nat) : jsstring := skipn n s.

(** The code unit of the line feed, the separator of [buffer.split('\n')]. *)
Definition LF : N := 10.

(** [s.split('\n')]: the pieces between the separators; never empty
    ([''.split('\n')] is [['']]). *)
Fixpoint split (s : jsstring) : list jsstring :=
  match s with
  | [] => [[]]
  | c :: s' =>
      if c =? LF then [] :: split s'
      else match split s' with
           | piece :: pieces => (c :: piece) :: pieces
           | [] => [[c]]
           end
  end.

(** [lines.pop()]: the array without its last element, and that element
    ([undefined], here [None], on an empty array). *)
Definition pop (lines : list jsstring) : list jsstring * option jsstring :=
  match lines with
  | [] => ([], None)
  | _ :: _ => (removelast lines, Some (last lines []))
  end.

(** [x || ''] for [x] a string or [undefined]: the empty string and
    [undefined] are both falsy. *)
Definition or_empty (x : option jsstring) : jsstring :=
  match x with
  | Some (c :: s) => c :: s
  | Some [] => []
  | None => []
  end.

(** The lines of a text that end with a line feed, and what follows the
    last line feed: the two parts [lines.pop()] separates. *)
Definition complete_lines (s : jsstring) : list jsstring := removelast (split s).
Definition partial_line (s : jsstring) : jsstring := last (split s) [].

End JS.

(* ================================================================== *)
(** ** [TextDecoder] (WHATWG Encoding Standard, UTF-8) *)
(* ================================================================== *)

Module Decoder.
Import JS.
Local Open Scope N_scope.

(** The state of the UTF-8 decoder. *)
Record utf8_state := mk_utf8 {
  code_point : N;
  bytes_seen : N;
  bytes_needed : N;
  lower_boundary : N;
  upper_boundary : N
}.

Definition utf8_initial : utf8_state := mk_utf8 0 0 0 0x80 0xBF.

Definition REPLACEMENT : N := 0xFFFD.
Definition BOM : N := 0xFEFF.

Definition in_range (lo hi b : N) : bool := (lo <=? b) && (b <=? hi).

(** The handler on a byte when no sequence is in progress
    ([bytes needed] is 0): the new state and the code points emitted. *)
Definition utf8_lead (b : N) : utf8_state * list N :=
  if in_range 0x00 0x7F b then (utf8_initial, [b])
  else if in_range 0xC2 0xDF b then
    (mk_utf8 (N.land b 0x1F) 0 1 0x80 0xBF, [])
  else if in_range 0xE0 0xEF b then
    (mk_utf8 (N.land b 0xF) 0 2
       (if b =? 0xE0 then 0xA0 else 0x80)
       (if b =? 0xED then 0x9F else 0xBF), [])
  else if in_range 0xF0 0xF4 b then
    (mk_utf8 (N.land b 0x7) 0 3
       (if b =? 0xF0 then 0x90 else 0x80)
       (if b =? 0xF4 then 0x8F else 0xBF), [])
  else (utf8_initial, [REPLACEMENT]).

(** The handler on a byte.  A byte outside the boundaries of a sequence in
    progress ends that sequence with U+FFFD and is then handled again from
    the initial state (the standard restores it to the queue). *)
Definition utf8_handler (d : utf8_state) (b : N) : utf8_state * list N :=
  if bytes_needed d =? 0 then utf8_lead b
  else if negb (in_range (lower_boundary d) (upper_boundary d) b) then
    let '(d', out) := utf8_lead b in (d', REPLACEMENT :: out)
  else
    let cp := N.lor (N.shiftl (code_point d) 6) (N.land b 0x3F) in
    let seen := bytes_seen d + 1 in
    if seen =? bytes_needed d then (utf8_initial, [cp])
    else (mk_utf8 cp seen (bytes_needed d) 0x80 0xBF, []).

(** A code point as UTF-16 code units. *)
Definition code_units (cp : N) : jsstring :=
  if cp <? 0x10000 then [cp]
  else [0xD800 + N.shiftr (cp - 0x10000) 10;
        0xDC00 + N.land (cp - 0x10000) 0x3FF].

(** Serialising the decoded code points: the first code point of the
    stream is dropped when it is the byte order mark. *)
Fixpoint serialize (bom_seen : bool) (cps : list N) : bool * jsstring :=
  match cps with
  | [] => (bom_seen, [])
  | cp :: cps' =>
      if negb bom_seen && (cp =? BOM) then serialize true cps'
      else let '(seen, out) := serialize true cps' in
           (seen, code_units cp ++ out)
  end.

(** [new TextDecoder()]: UTF-8, replacement error mode, BOM not ignored. *)
Record TextDecoder := mk_decoder {
  utf8 : utf8_state;
  BOM_seen : bool
}.

Definition new_TextDecoder : TextDecoder := mk_decoder utf8_initial false.

Definition decode_byte (d : TextDecoder) (b : byte) : TextDecoder * jsstring :=
  let '(u, cps) := utf8_handler (utf8 d) (Byte.to_N b) in
  let '(seen, out) := serialize (BOM_seen d) cps in
  (mk_decoder u seen, out).

(** [decoder.decode(value, { stream: true })]: the bytes of the chunk go
    through the handler one by one; the end of the chunk flushes nothing,
    an unfinished sequence stays in the decoder. *)
Fixpoint decode (d : TextDecoder) (value : list byte) : TextDecoder * jsstring :=
  match value with
  | [] => (d, [])
  | b :: value' =>
      let '(d1, out1) := decode_byte d b in
      let '(d2, out2) := decode d1 value' in
      (d2, out1 ++ out2)
  end.

(** An invariant of the handler: inside a sequence, either some payload
    bit read so far is set, or the boundaries for the next byte still
    exclude the overlong forms. *)
Definition sound (u : utf8_state) : bool :=
  (bytes_needed u =? 0) || negb (code_point u =? 0)
  || ((0x90 <=? lower_boundary u) && (upper_boundary u <=? 0xBF)).

(** The text has no line feed. *)
Definition LF_free (s : jsstring) : bool := negb (existsb (N.eqb LF) s).

End Decoder.

(* ================================================================== *)
(** ** The streaming generators of [lib/api.ts] *)
(* ================================================================== *)

Module Sse.
Import JS Decoder.

(** What a generator does that a caller or the console can observe:
    [yield event], and [console.error('Failed to parse SSE event:', e)] for
    the [SyntaxError] that [JSON.parse] raised on [data]. *)
Inductive effect (V : Type) : Type :=
| Yield (event : V)
| ConsoleError (data : jsstring).
Arguments Yield {V} event.
Arguments ConsoleError {V} data.

(** How a generator ends: [return] (or falling off its end), or a [throw]. *)
Inductive completion : Type :=
| Returned
| Thrown (message : string).

(** The response [fetch] resolved to, as far as the generators look at it:
    [response.ok], and [response.body] with the chunks its reader will
    deliver before it reports [done]. *)
Record Response := mk_response {
  ok : bool;
  body : option (list (list byte))
}.

(** A successful response whose body arrives as the chunks [chunks]. *)
Definition delivered (chunks : list (list byte)) : Response :=
  mk_response true (Some chunks).

(** The events a consumer receives from a trace. *)
Fixpoint events {V : Type} (trace : list (effect V)) : list V :=
  match trace with
  | [] => []
  | Yield v :: trace' => v :: events trace'
  | ConsoleError _ :: trace' => events trace'
  end.

Section Generators.

Variable V : Type.
(** [JSON.parse]: [None] when it throws a [SyntaxError]. *)
Variable JSON_parse : jsstring -> option V.

(** An effect, then the rest of the loop. *)
Definition and_then (e : effect V) (rest : list (effect V) * bool)
  : list (effect V) * bool :=
  (e :: fst rest, snd rest).
Local Notation "e ;; rest" := (and_then e rest) (at level 61, right associativity).

(** *** [streamReconciliation] *)

(** [for (const line of lines) { ... }] of [streamReconciliation]: the
    trace of the loop, and whether it left through [return]. *)
Fixpoint reconciliation_for (lines : list jsstring) : list (effect V) * bool :=
  match lines with
  | [] => ([], false)
  | line :: lines' =>
      if startsWith line (lit "data: ") then
        let data := slice line 6 in
        if str_eqb data (lit "[DONE]") then ([], true)
        else
          match JSON_parse data with
          | Some event => (Yield event) ;; reconciliation_for lines'
          | None => (ConsoleError data) ;; reconciliation_for lines'
          end
      else reconciliation_for lines'
  end.

(** [while (true) { ... }] of [streamReconciliation], from the state
    [decoder], [buffer] and with the chunks the reader still has. *)
Fixpoint reconciliation_while (decoder : TextDecoder) (buffer : jsstring)
    (chunks : list (list byte)) : list (effect V) :=
  match chunks with
  | [] => []
  | value :: chunks' =>
      let '(decoder', text) := decode decoder value in
      let buffer := (buffer ++ text)%list in
      let lines := split buffer in
      let '(lines, popped) := pop lines in
      let buffer := or_empty popped in
      let '(trace, returned) := reconciliation_for lines in
      if returned then trace
      else (trace ++ reconciliation_while decoder' buffer chunks')%list
  end.

Definition streamReconciliation (response : Response)
  : list (effect V) * completion :=
  if negb (ok response) then ([], Thrown "Reconciliation failed")
  else match body response with
       | None => ([], Thrown "No response body")
       | Some chunks =>
           (reconciliation_while new_TextDecoder [] chunks, Returned)
       end.

(** *** [streamVisualization] *)

Fixpoint visualization_for (lines : list jsstring) : list (effect V) * bool :=
  match lines with
  | [] => ([], false)
  | line :: lines' =>
      if startsWith line (lit "data: ") then
        let data := slice line 6 in
        if str_eqb data (lit "[DONE]") then ([], true)
        else
          match JSON_parse data with
          | Some event => (Yield event) ;; visualization_for lines'
          | None => (ConsoleError data) ;; visualization_for lines'
          end
      else visualization_for lines'
  end.

Fixpoint visualization_while (decoder : TextDecoder) (buffer : jsstring)
    (chunks : list (list byte)) : list (effect V) :=
  match chunks with
  | [] => []
  | value :: chunks' =>
      let '(decoder', text) := decode decoder value in
      let buffer := (buffer ++ text)%list in
      let lines := split buffer in
      let '(lines, popped) := pop lines in
      let buffer := or_empty popped in
      let '(trace, returned) := visualization_for lines in
      if returned then trace
      else (trace ++ visualization_while decoder' buffer chunks')%list
  end.

Definition streamVisualization (response : Response)
  : list (effect V) * completion :=
  if negb (ok response) then ([], Thrown "Visualization failed")
  else match body response with
       | None => ([], Thrown "No response body")
       | Some chunks =>
           (visualization_while new_TextDecoder [] chunks, Returned)
       end.

End Generators.

(** The text of a whole body, and the lines of it that end with a line
    feed. *)
Definition body_text (chunks : list (list byte)) : jsstring :=
  snd (decode new_TextDecoder (List.concat chunks)).
Definition body_lines (chunks : list (list byte)) : list jsstring :=
  complete_lines (body_text chunks).

Arguments and_then {V} e rest.
Arguments reconciliation_for {V} JSON_parse lines.
Arguments reconciliation_while {V} JSON_parse decoder buffer chunks.
Arguments streamReconciliation {V} JSON_parse response.
Arguments visualization_for {V} JSON_parse lines.
Arguments visualization_while {V} JSON_parse decoder buffer chunks.
Arguments streamVisualization {V} JSON_parse response.

End Sse.

(* ================================================================== *)
(** ** [JSON.parse] (ECMA-404 grammar) *)
(* ================================================================== *)

Module Json.
Import JS.
Local Open Scope N_scope.

(** A parsed JSON text.  A number keeps its literal (its conversion to a
    double is outside this model); an object keeps its members in the
    order of their first occurrence, a repeated key taking the last value. *)
Inductive value : Type :=
| JNull
| JBool (b : bool)
| JNumber (literal : jsstring)
| JString (s : jsstring)
| JArray (elements : list value)
| JObject (members : list (jsstring * value)).

Definition ch (a : ascii) : N := N_of_ascii a.
Definition QUOTE : N := 34.
Definition BACKSLASH : N := 92.

Definition is_ws (c : N) : bool :=
  (c =? 9) || (c =? 10) || (c =? 13) || (c =? 32).

Fixpoint skip_ws (s : jsstring) : jsstring :=
  match s with
  | c :: s' => if is_ws c then skip_ws s' else s
  | [] => []
  end.

Definition is_digit (c : N) : bool := (48 <=? c) && (c <=? 57).

Definition hex_digit (c : N) : option N :=
  if is_digit c then Some (c - 48)
  else if (65 <=? c) && (c <=? 70) then Some (c - 55)
  else if (97 <=? c) && (c <=? 102) then Some (c - 87)
  else None.

Definition hex4 (a b c d : N) : option N :=
  match hex_digit a, hex_digit b, hex_digit c, hex_digit d with
  | Some x, Some y, Some z, Some w => Some (((x * 16 + y) * 16 + z) * 16 + w)
  | _, _, _, _ => None
  end.

(** The characters of a string after its opening quote, up to the closing
    one: the string denoted (accumulated in reverse) and what follows. *)
Fixpoint string_chars (s acc : jsstring) : option (jsstring * jsstring) :=
  match s with
  | [] => None
  | c :: r =>
      if c =? QUOTE then Some (rev acc, r)
      else if c =? BACKSLASH then
        match r with
        | [] => None
        | e :: r' =>
            if e =? QUOTE then string_chars r' (QUOTE :: acc)
            else if e =? BACKSLASH then string_chars r' (BACKSLASH :: acc)
            else if e =? ch "/" then string_chars r' (ch "/" :: acc)
            else if e =? ch "b" then string_chars r' (8 :: acc)
            else if e =? ch "f" then string_chars r' (12 :: acc)
            else if e =? ch "n" then string_chars r' (10 :: acc)
            else if e =? ch "r" then string_chars r' (13 :: acc)
            else if e =? ch "t" then string_chars r' (9 :: acc)
            else if e =? ch "u" then
              match r' with
              | h1 :: h2 :: h3 :: h4 :: r'' =>
                  match hex4 h1 h2 h3 h4 with
                  | Some u => string_chars r'' (u :: acc)
                  | None => None
                  end
              | _ => None
              end
            else None
        end
      else if c <? 32 then None
      else string_chars r (c :: acc)
  end.

Fixpoint digits (s : jsstring) : jsstring * jsstring :=
  match s with
  | c :: r => if is_digit c then let '(ds, r') := digits r in (c :: ds, r')
              else ([], s)
  | [] => ([], [])
  end.

(** A number literal: an optional minus sign; a zero, or a non-zero digit
    followed by digits; optionally a point and one or more digits;
    optionally an exponent mark, a sign and one or more digits. *)
Definition number (s : jsstring) : option (jsstring * jsstring) :=
  let '(sign, s1) :=
    match s with
    | c :: r => if c =? ch "-" then ([c], r) else ([], s)
    | [] => ([], s)
    end in
  let int_part :=
    match s1 with
    | c :: r =>
        if c =? ch "0" then Some ([c], r)
        else if is_digit c then let '(ds, r') := digits r in Some (c :: ds, r')
        else None
    | [] => None
    end in
  match int_part with
  | None => None
  | Some (int, s2) =>
      let frac_part :=
        match s2 with
        | c :: r =>
            if c =? ch "." then
              match digits r with
              | ([], _) => None
              | (ds, r') => Some (c :: ds, r')
              end
            else Some ([], s2)
        | [] => Some ([], s2)
        end in
      match frac_part with
      | None => None
      | Some (frac, s3) =>
          let exp_part :=
            match s3 with
            | c :: r =>
                if (c =? ch "e") || (c =? ch "E") then
                  let '(esign, r1) :=
                    match r with
                    | g :: r0 =>
                        if (g =? ch "+") || (g =? ch "-") then ([g], r0)
                        else ([], r)
                    | [] => ([], r)
                    end in
                  match digits r1 with
                  | ([], _) => None
                  | (ds, r') => Some (c :: esign ++ ds, r')
                  end
                else Some ([], s3)
            | [] => Some ([], s3)
            end in
          match exp_part with
          | None => None
          | Some (ex, s4) => Some (sign ++ int ++ frac ++ ex, s4)
          end
      end
  end.

(** Defining a member: a key already present keeps its place and takes
    the new value. *)
Fixpoint set_member (k : jsstring) (v : value)
    (members : list (jsstring * value)) : list (jsstring * value) :=
  match members with
  | [] => [(k, v)]
  | (k', v') :: members' =>
      if str_eqb k' k then (k', v) :: members'
      else (k', v') :: set_member k v members'
  end.

(** A value, after optional white space; then, for an array or an object
    already opened, its remaining elements or members. *)
Fixpoint parse_value (fuel : nat) (s : jsstring) {struct fuel}
  : option (value * jsstring) :=
  match fuel with
  | O => None
  | S fuel' =>
      match skip_ws s with
      | [] => None
      | c :: r =>
          if c =? ch "{" then
            match skip_ws r with
            | c' :: r' =>
                if c' =? ch "}" then Some (JObject [], r')
                else parse_members fuel' [] r
            | [] => None
            end
          else if c =? ch "[" then
            match skip_ws r with
            | c' :: r' =>
                if c' =? ch "]" then Some (JArray [], r')
                else parse_elements fuel' [] r
            | [] => None
            end
          else if c =? QUOTE then
            match string_chars r [] with
            | Some (str, r') => Some (JString str, r')
            | None => None
            end
          else if startsWith (c :: r) (lit "true") then
            Some (JBool true, slice (c :: r) 4)
          else if startsWith (c :: r) (lit "false") then
            Some (JBool false, slice (c :: r) 5)
          else if startsWith (c :: r) (lit "null") then
            Some (JNull, slice (c :: r) 4)
          else
            match number (c :: r) with
            | Some (literal, r') => Some (JNumber literal, r')
            | None => None
            end
      end
  end
with parse_elements (fuel : nat) (acc : list value) (s : jsstring)
    {struct fuel} : option (value * jsstring) :=
  match fuel with
  | O => None
  | S fuel' =>
      match parse_value fuel' s with
      | None => None
      | Some (v, r) =>
          match skip_ws r with
          | c :: r' =>
              if c =? ch "," then parse_elements fuel' (acc ++ [v]) r'
              else if c =? ch "]" then Some (JArray (acc ++ [v]), r')
              else None
          | [] => None
          end
      end
  end
with parse_members (fuel : nat) (acc : list (jsstring * value)) (s : jsstring)
    {struct fuel} : option (value * jsstring) :=
  match fuel with
  | O => None
  | S fuel' =>
      match skip_ws s with
      | q :: r =>
          if q =? QUOTE then
            match string_chars r [] with
            | None => None
            | Some (key, r1) =>
                match skip_ws r1 with
                | c :: r2 =>
                    if c =? ch ":" then
                      match parse_value fuel' r2 with
                      | None => None
                      | Some (v, r3) =>
                          match skip_ws r3 with
                          | c' :: r4 =>
                              if c' =? ch "," then
                                parse_members fuel' (set_member key v acc) r4
                              else if c' =? ch "}" then
                                Some (JObject (set_member key v acc), r4)
                              else None
                          | [] => None
                          end
                      end
                    else None
                | [] => None
                end
            end
          else None
      | [] => None
      end
  end.

(** [JSON.parse(text)]: one value, with nothing but white space around
    it; [None] stands for the [SyntaxError].  The fuel is twice the length
    of the text: every call spends one unit and at most two calls are made
    per character read. *)
Definition JSON_parse (text : jsstring) : option value :=
  match parse_value (2 * List.length text + 1) text with
  | Some (v, r) =>
      match skip_ws r with
      | [] => Some v
      | _ :: _ => None
      end
  | None => None
  end.

End Json.

(* ================================================================== *)
(** ** The records of [lib/types.ts] *)
(* ================================================================== *)

Module Types.

Inductive integrity : Type := PASS | WARN | FAIL.

Record AuditData := mk_audit {
  original_row_count : N;
  clean_row_count : N;
  audit_duplicates_removed : N;
  residual_nulls : N;
  composite_key_present : bool;
  integrity_status : integrity
}.

Record ReconciliationSummary := mk_summary {
  session_id : string;
  filename : string;
  original_rows : N;
  clean_rows : N;
  duplicates_removed : N;
  audit : AuditData
}.

Record HealthResponse := mk_health {
  status : string;
  has_session : bool;
  health_filename : option string
}.

Record ChatRequest := mk_chat_request {
  question : string
}.

(** [answer] is optional here because the insight card reads it with
    [data.answer ?? '']. *)
Record ChatResponse := mk_chat_response {
  answer : option string;
  grounded : bool
}.

(** What awaiting a promise gives: its value, or the exception thrown at
    the [await] when it rejects; [Pending] is a promise that never settles
    (the [await] never resumes). *)
Inductive promise (A : Type) : Type :=
| Fulfilled (a : A)
| Rejected (reason : string)
| Pending.
Arguments Fulfilled {A} a.
Arguments Rejected {A} reason.
Arguments Pending {A}.

(** A promise that has settled. *)
Inductive settled (A : Type) : Type :=
| Resolves (a : A)
| Throws (reason : string).
Arguments Resolves {A} a.
Arguments Throws {A} reason.

End Types.

(* ================================================================== *)
(** ** The session provider of [context/SessionContext.tsx] *)
(* ================================================================== *)

Module Session.
Import Types.

(** The three [useState] cells of [SessionProvider]. *)
Record state := mk_state {
  hasSession : bool;
  sessionData : option ReconciliationSummary;
  backendOnline : bool
}.

(** [useState(false)], [useState(null)], [useState(true)]. *)
Definition initial : state := mk_state false None true.

(** The setters returned by [useState]. *)
Module Cell.
Definition setHasSession (b : bool) (s : state) : state :=
  mk_state b (sessionData s) (backendOnline s).
Definition setSessionData (d : option ReconciliationSummary) (s : state) : state :=
  mk_state (hasSession s) d (backendOnline s).
Definition setBackendOnline (b : bool) (s : state) : state :=
  mk_state (hasSession s) (sessionData s) b.
End Cell.

(** What [fetch(API_BASE + '/health')] does: it rejects, or it resolves
    to a response with its [ok] flag and the result of [response.json()]
    ([None] when the body is not a health record). *)
Inductive probe : Type :=
| NetworkError
| Answer (ok : bool) (json : option HealthResponse).

(** [checkHealth] of [lib/api.ts]. *)
Definition checkHealth (p : probe) : settled HealthResponse :=
  match p with
  | NetworkError => Throws "Failed to fetch"
  | Answer ok json =>
      if negb ok then Throws "Backend offline"
      else match json with
           | Some health => Resolves health
           | None => Throws "Unexpected token"
           end
  end.

(** [!!data] for an object or [null]. *)
Definition truthy (data : option ReconciliationSummary) : bool :=
  match data with
  | Some _ => true
  | None => false
  end.

(** [refreshSession]: the [try] block after [await checkHealth()], and the
    [catch] block. *)
Definition refreshSession (p : probe) (s : state) : state :=
  match checkHealth p with
  | Resolves health =>
      let s := Cell.setBackendOnline true s in
      let s := Cell.setHasSession (has_session health) s in
      if negb (has_session health) then Cell.setSessionData None s else s
  | Throws _ =>
      let s := Cell.setBackendOnline false s in
      Cell.setHasSession false s
  end.

(** The [setSessionData] of the context value:
    [(data) => { setSessionData(data); setHasSession(!!data); }]. *)
Definition setSessionData (data : option ReconciliationSummary) (s : state) : state :=
  let s := Cell.setSessionData data s in
  Cell.setHasSession (truthy data) s.

(** The probe throws, or answers with a non-success status. *)
Definition probe_fails (p : probe) : Prop :=
  match p with
  | NetworkError => True
  | Answer ok _ => ok = false
  end.

(** The states named by the specification. *)
Definition Offline (s : state) : Prop :=
  backendOnline s = false /\ hasSession s = false.
Definition Online_NoSession (s : state) : Prop :=
  backendOnline s = true /\ hasSession s = false.
Definition Online_HasSession (s : state) : Prop :=
  backendOnline s = true /\ hasSession s = true.

End Session.

(* ================================================================== *)
(** ** The two callers of [POST /ask] *)
(* ================================================================== *)

Module Ask.
Import Types.
Local Open Scope N_scope.

Definition API_BASE : string := "http://localhost:8000".

(** The body handed to [JSON.stringify]: the chat question, or the prompt
    the insight card builds from the summary (its text, which formats
    floating-point percentages, is kept symbolic). *)
Inductive payload : Type :=
| Question (request : ChatRequest)
| InsightPrompt (sessionData : ReconciliationSummary).

(** The arguments of a [fetch] call; [signal] is the delay of
    [AbortSignal.timeout], when one is given. *)
Record Request := mk_request {
  url : string;
  method : string;
  content_type : string;
  request_body : payload;
  signal : option N
}.

(** The [fetch] call of [askQuestion] in [lib/api.ts]. *)
Definition askQuestion_request (request : ChatRequest) : Request :=
  mk_request (API_BASE ++ "/ask") "POST" "application/json"
    (Question request) None.

(** The [fetch] call of [InsightCard.fetchInsight] in
    [components/Layout.tsx]. *)
Definition fetchInsight_request (sessionData : ReconciliationSummary) : Request :=
  mk_request "http://localhost:8000/ask" "POST" "application/json"
    (InsightPrompt sessionData) (Some 25000).

(** The backend as seen from one request: unreachable, never answering,
    or answering [after] milliseconds with a status and a JSON body. *)
Inductive backend : Type :=
| Unreachable
| Silent
| Answers (after : N) (ok : bool) (json : option ChatResponse).

(** The platform's [fetch] followed by [response.json()].  A call with an
    [AbortSignal.timeout(ms)] rejects once [ms] milliseconds have passed
    without the answer; a call without a signal waits for as long as the
    answer takes. *)
Definition fetch (r : Request) (b : backend)
  : promise (bool * option ChatResponse) :=
  match b with
  | Unreachable => Rejected "Failed to fetch"
  | Silent =>
      match signal r with
      | Some _ => Rejected "TimeoutError"
      | None => Pending
      end
  | Answers after ok json =>
      match signal r with
      | Some ms => if after <? ms then Fulfilled (ok, json)
                   else Rejected "TimeoutError"
      | None => Fulfilled (ok, json)
      end
  end.

(** [askQuestion] of [lib/api.ts]. *)
Definition askQuestion (request : ChatRequest) (b : backend)
  : promise ChatResponse :=
  match fetch (askQuestion_request request) b with
  | Fulfilled (ok, json) =>
      if negb ok then Rejected "Question failed"
      else match json with
           | Some response => Fulfilled response
           | None => Rejected "Unexpected token"
           end
  | Rejected reason => Rejected reason
  | Pending => Pending
  end.

(** The [useState] cells of [InsightCard]. *)
Record card := mk_card {
  insight : string;
  loading : bool;
  error : bool;
  fetched : bool
}.

Definition setInsight (v : string) (c : card) : card :=
  mk_card v (loading c) (error c) (fetched c).
Definition setLoading (v : bool) (c : card) : card :=
  mk_card (insight c) v (error c) (fetched c).
Definition setError (v : bool) (c : card) : card :=
  mk_card (insight c) (loading c) v (fetched c).
Definition setFetched (v : bool) (c : card) : card :=
  mk_card (insight c) (loading c) (error c) v.

(** [data.answer ?? ''] *)
Definition answer_or_empty (r : ChatResponse) : string :=
  match answer r with
  | Some a => a
  | None => ""
  end.

(** [InsightCard.fetchInsight]: the card once the callback has run to its
    end ([Pending] if it never does). *)
Definition fetchInsight (sessionData : option ReconciliationSummary)
    (b : backend) (c : card) : promise card :=
  match sessionData with
  | None => Fulfilled c
  | Some data =>
      let c := setLoading true c in
      let c := setError false c in
      let catch c := setError true c in
      let finally c := setLoading false c in
      match fetch (fetchInsight_request data) b with
      | Fulfilled (ok, json) =>
          if negb ok then Fulfilled (finally (catch c))
          else match json with
               | Some response =>
                   let c := setInsight (answer_or_empty response) c in
                   let c := setFetched true c in
                   Fulfilled (finally c)
               | None => Fulfilled (finally (catch c))
               end
      | Rejected _ => Fulfilled (finally (catch c))
      | Pending => Pending
      end
  end.

(** The card after a failed request: [catch] then [finally]. *)
Definition failed (c : card) : card :=
  mk_card (insight c) false true (fetched c).

(** The requests the client sends to [POST /ask]. *)
Inductive post_ask : Request -> Prop :=
| from_chat (request : ChatRequest) : post_ask (askQuestion_request request)
| from_insight (sessionData : ReconciliationSummary) :
    post_ask (fetchInsight_request sessionData).

End Ask.

(* ================================================================== *)
(** ** Sample inputs *)
(* ================================================================== *)

Module Samples.
Import JS Json Types.
Local Open Scope N_scope.

(** Sample texts are written with an apostrophe where the wire has a
    double quote and with a vertical bar where it has a line feed. *)
Definition wire_char (a : ascii) : N :=
  let c := N_of_ascii a in
  if c =? 39 then 34 else if c =? 124 then 10 else c.

Definition text (s : string) : jsstring :=
  map wire_char (list_ascii_of_string s).

Definition bytes (s : string) : list byte :=
  map (fun c => match Byte.of_N c with Some b => b | None => x00 end) (text s).

(** The event [{ type: 'thought', data: s }]. *)
Definition thought (s : string) : value :=
  JObject [(lit "type", JString (lit "thought")); (lit "data", JString (lit s))].

Definition summary_a : ReconciliationSummary :=
  mk_summary "s1" "a.csv" 100 90 10 (mk_audit 100 90 10 0 true PASS).

End Samples.

(* ================================================================== *)
(** ** What the dispatch loop is expected to compute *)
(* ================================================================== *)

Module Dispatch.
Import JS Sse.

(** Lines and rest put back together, each line with its line feed. *)
Definition join (lines : list jsstring) (rest : jsstring) : jsstring :=
  (List.concat (map (fun line => line ++ [LF]) lines) ++ rest)%list.

(** The lines in front of the first line [data: [DONE]]. *)
Fixpoint before_sentinel (lines : list jsstring) : list jsstring :=
  match lines with
  | [] => []
  | line :: lines' =>
      if str_eqb line (lit "data: [DONE]") then []
      else line :: before_sentinel lines'
  end.

Definition is_data (line : jsstring) : bool := startsWith line (lit "data: ").

(** The payloads the loop hands to [JSON.parse], in order. *)
Definition payloads (lines : list jsstring) : list jsstring :=
  map (fun line => slice line 6) (filter is_data (before_sentinel lines)).

(** What one payload gives: the parsed value, or the diagnostic. *)
Definition report {V : Type} (JSON_parse : jsstring -> option V)
    (payload : jsstring) : effect V :=
  match JSON_parse payload with
  | Some event => Yield event
  | None => ConsoleError payload
  end.

End Dispatch.

(* ================================================================== *)
(** ** Histories of the session provider and the page guards *)
(* ================================================================== *)

Module Guards.
Import Types Session.

(** The two ways the provider's state is written: [refreshSession] with
    what its probe meets, and the context's [setSessionData]. *)
Inductive op : Type :=
| Refresh (p : probe)
| SetSessionData (data : option ReconciliationSummary).

Definition apply (o : op) (s : state) : state :=
  match o with
  | Refresh p => refreshSession p s
  | SetSessionData data => setSessionData data s
  end.

(** The state after a history of writes, the earliest first. *)
Definition run (ops : list op) (s : state) : state :=
  fold_left (fun s o => apply o s) ops s.

(** What a page renders, as far as its guards decide. *)
Inductive view : Type :=
| BackendOffline
| Locked
| Content.

(** The guards of [Visualize] ([components/Layout.tsx]):
    [if (!backendOnline) ...; if (!hasSession || !sessionData) ...]. *)
Definition Visualize (s : state) : view :=
  if negb (backendOnline s) then BackendOffline
  else if negb (hasSession s) || negb (truthy (sessionData s)) then Locked
  else Content.

(** The guards of [ZenChat]:
    [if (!backendOnline) ...; if (!hasSession) ...]. *)
Definition ZenChat (s : state) : view :=
  if negb (backendOnline s) then BackendOffline
  else if negb (hasSession s) then Locked
  else Content.

(** The guard of [UploadReconcile]: [if (!backendOnline) ...]. *)
Definition UploadReconcile (s : state) : view :=
  if negb (backendOnline s) then BackendOffline else Content.

(** The badge in the navigation bar of [Layout]:
    [!backendOnline && ...] and
    [backendOnline && hasSession && sessionData && ...]. *)
Inductive badge : Type :=
| OfflineBadge
| SessionActive (filename : string)
| NoBadge.

Definition Layout (s : state) : badge :=
  if negb (backendOnline s) then OfflineBadge
  else if hasSession s then
    match sessionData s with
    | Some data => SessionActive (filename data)
    | None => NoBadge
    end
  else NoBadge.

(** What every write preserves. *)
Definition consistent (s : state) : Prop :=
  (backendOnline s = true -> sessionData s <> None -> hasSession s = true)
  /\ (hasSession s = true -> sessionData s = None -> backendOnline s = true).

(** The effect of [Visualize]: [if (hasSession) runVizAgent()]. *)
Definition starts_runVizAgent (s : state) : bool := hasSession s.

End Guards.

(* ================================================================== *)
(** ** Reading the values [JSON.parse] returns *)
(* ================================================================== *)

Module JSValue.
Import JS Json.

(** A value a consumer holds: [undefined], or a parsed JSON value. *)
Inductive jsval : Type :=
| Undefined
| Of (v : value).

(** JavaScript's [null]. *)
Definition null : jsval := Of JNull.

Fixpoint member (key : jsstring) (members : list (jsstring * value)) : jsval :=
  match members with
  | [] => Undefined
  | (k, v) :: members' => if str_eqb k key then Of v else member key members'
  end.

(** [x.key], for a key that names no built-in property of arrays, strings,
    numbers and booleans ([type], [data] and [success] are such keys):
    [None] stands for the [TypeError] on [null] and [undefined]. *)
Definition get (x : jsval) (key : jsstring) : option jsval :=
  match x with
  | Undefined => None
  | Of JNull => None
  | Of (JObject members) => Some (member key members)
  | Of _ => Some Undefined
  end.

(** [x === 'name'] *)
Definition is_string (x : jsval) (name : jsstring) : bool :=
  match x with
  | Of (JString s) => str_eqb s name
  | _ => false
  end.

(** Truthiness.  Whether a number literal denotes zero is left to
    [is_zero]: it depends on the conversion to a double. *)
Definition truthy (is_zero : jsstring -> bool) (x : jsval) : bool :=
  match x with
  | Undefined => false
  | Of JNull => false
  | Of (JBool b) => b
  | Of (JNumber literal) => negb (is_zero literal)
  | Of (JString s) => match s with [] => false | _ :: _ => true end
  | Of (JArray _) => true
  | Of (JObject _) => true
  end.

(** What a [catch] receives: an [Error] with its message, or the
    [TypeError] of a property read on [null] or [undefined]. *)
Inductive thrown : Type :=
| Error (message : string)
| TypeError.

(** An entry of a page's [logs]: the [data] of a thought, or the line a
    [catch] block builds from the error. *)
Inductive log : Type :=
| Data (v : jsval)
| Failure (e : thrown).

End JSValue.

(* ================================================================== *)
(** ** [FileUpload] and [UploadReconcile] *)
(* ================================================================== *)

Module Upload.
Import JS Json Sse JSValue.

Record File := mk_file {
  name : jsstring;
  size : N
}.

(** [s.endsWith(suffix)] *)
Definition endsWith (s suffix : jsstring) : bool :=
  str_eqb (skipn (List.length s - List.length suffix) s) suffix.

(** The common part of [handleDrop] and [handleFileInput] of [FileUpload]:
    the file handed to [onFileSelect], if any.  [files] is the [FileList]
    of the event, [None] when the event has none. *)
Definition offered (files : option (list File)) : option File :=
  match files with
  | Some (file :: _) =>
      if endsWith (name file) (lit ".csv") then Some file else None
  | Some [] => None
  | None => None
  end.



(** The [useState] cells of [UploadReconcile]. *)
Record page := mk_page {
  selectedFile : option File;
  isProcessing : bool;
  logs : list log;
  summary : jsval
}.

(** [useState(null)], [useState(false)], [useState([])], [useState(null)]. *)
Definition initial : page := mk_page None false [] null.

Definition setSelectedFile (v : option File) (p : page) : page :=
  mk_page v (isProcessing p) (logs p) (summary p).
Definition setIsProcessing (v : bool) (p : page) : page :=
  mk_page (selectedFile p) v (logs p) (summary p).
Definition setLogs (f : list log -> list log) (p : page) : page :=
  mk_page (selectedFile p) (isProcessing p) (f (logs p)) (summary p).
Definition setSummary (v : jsval) (p : page) : page :=
  mk_page (selectedFile p) (isProcessing p) (logs p) v.

Definition handleFileSelect (file : File) (p : page) : page :=
  let p := setSelectedFile (Some file) p in
  let p := setLogs (fun _ => []) p in
  setSummary null p.


(** The page together with what its handlers do outside it: the
    arguments of the calls to the context's [setSessionData], and the
    diagnostics the generator has logged. *)
Record world := mk_world {
  the_page : page;
  adopted : list jsval;
  console : list jsstring
}.

Definition on_page (f : page -> page) (w : world) : world :=
  mk_world (f (the_page w)) (adopted w) (console w).

(** The body of [for await (const event of ...)] in [handleReconcile];
    [None] when a property read throws. *)
Definition reconcile_event (event : value) (w : world) : option world :=
  match get (Of event) (lit "type") with
  | None => None
  | Some type =>
      if is_string type (lit "thought") then
        match get (Of event) (lit "data") with
        | None => None
        | Some data => Some (on_page (setLogs (fun prev => prev ++ [Data data])) w)
        end
      else if is_string type (lit "summary") then
        match get (Of event) (lit "data") with
        | None => None
        | Some data =>
            let w := on_page (setSummary data) w in
            Some (mk_world (the_page w) (adopted w ++ [data]) (console w))
        end
      else Some w
  end.

(** The [for await] loop over what the generator does, in order.  When
    the body throws, the generator is closed: what it would have done
    next does not happen. *)
Fixpoint reconcile_loop (trace : list (effect value)) (w : world)
  : world * option thrown :=
  match trace with
  | [] => (w, None)
  | ConsoleError data :: trace' =>
      reconcile_loop trace' (mk_world (the_page w) (adopted w) (console w ++ [data]))
  | Yield event :: trace' =>
      match reconcile_event event w with
      | Some w' => reconcile_loop trace' w'
      | None => (w, Some TypeError)
      end
  end.

Section Handlers.

Variable JSON_parse : jsstring -> option value.

(** [handleReconcile], given the response [fetch] resolves to for the
    selected file. *)
Definition handleReconcile (response : Response) (w : world) : world :=
  match selectedFile (the_page w) with
  | None => w
  | Some _ =>
      let w := on_page (setIsProcessing true) w in
      let w := on_page (setLogs (fun _ => [])) w in
      let w := on_page (setSummary null) w in
      let '(trace, completion) := streamReconciliation JSON_parse response in
      let '(w, failure) := reconcile_loop trace w in
      let catch e w := on_page (setLogs (fun prev => prev ++ [Failure e])) w in
      let w :=
        match failure, completion with
        | Some e, _ => catch e w
        | None, Thrown message => catch (Error message) w
        | None, Returned => w
        end in
      on_page (setIsProcessing false) w
  end.




End Handlers.

(** The thoughts and the summaries among the events, by the tests of the
    loop body, and the [data] of an event. *)
Definition has_type (name : string) (event : value) : bool :=
  match get (Of event) (lit "type") with
  | Some type => is_string type (lit name)
  | None => false
  end.

Definition data_of (event : value) : jsval :=
  match get (Of event) (lit "data") with
  | Some data => data
  | None => Undefined
  end.

Definition console_of {V : Type} (trace : list (effect V)) : list jsstring :=
  flat_map (fun e => match e with ConsoleError data => [data] | Yield _ => [] end)
    trace.

End Upload.

(* ================================================================== *)
(** ** [Visualize.runVizAgent] *)
(* ================================================================== *)

Module Viz.
Import JS Json Sse JSValue.

(** [getPlotUrl] of [lib/api.ts]. *)
Definition getPlotUrl : string := (Ask.API_BASE ++ "/plot")%string.

(** [n.toString()] for a non-negative integer. *)
Definition decimal (n : N) : string :=
  DecimalString.NilZero.string_of_uint (N.to_uint n).

(** The cells of [Visualize] that [runVizAgent] writes ([showLogs] and
    [showRawPlot] are written by buttons only). *)
Record page := mk_page {
  logs : list log;
  vizRunning : bool;
  plotUrl : string
}.

(** [useState([])], [useState(false)], [useState('')]. *)
Definition initial : page := mk_page [] false "".

Definition setLogs (f : list log -> list log) (p : page) : page :=
  mk_page (f (logs p)) (vizRunning p) (plotUrl p).
Definition setVizRunning (v : bool) (p : page) : page :=
  mk_page (logs p) v (plotUrl p).
Definition setPlotUrl (v : string) (p : page) : page :=
  mk_page (logs p) (vizRunning p) v.

Section Agent.

(** Whether a number literal denotes zero, and the readings of
    [Date.now()]: the reading taken while the event number [k] of the
    stream is handled. *)
Variable is_zero : jsstring -> bool.
Variable Date_now : nat -> N.

(** The body of [for await (const event of streamVisualization())];
    [None] when a property read throws. *)
Definition viz_event (k : nat) (event : value) (p : page) : option page :=
  match get (Of event) (lit "type") with
  | None => None
  | Some type =>
      if is_string type (lit "thought") then
        match get (Of event) (lit "data") with
        | None => None
        | Some data => Some (setLogs (fun prev => prev ++ [Data data]) p)
        end
      else if is_string type (lit "viz_result") then
        match get (Of event) (lit "data") with
        | None => None
        | Some data =>
            match get data (lit "success") with
            | None => None
            | Some success =>
                if truthy is_zero success then
                  Some (setPlotUrl
                          (getPlotUrl ++ "?t=" ++ decimal (Date_now k))%string p)
                else Some p
            end
        end
      else Some p
  end.

(** The [for await] loop, from the event number [k]; the diagnostics of
    the generator go to the console and leave the page alone. *)
Fixpoint viz_loop (k : nat) (trace : list (effect value)) (p : page)
  : page * option thrown :=
  match trace with
  | [] => (p, None)
  | ConsoleError _ :: trace' => viz_loop k trace' p
  | Yield event :: trace' =>
      match viz_event k event p with
      | Some p' => viz_loop (S k) trace' p'
      | None => (p, Some TypeError)
      end
  end.

Variable JSON_parse : jsstring -> option value.

(** [runVizAgent], given the response [fetch] resolves to. *)
Definition runVizAgent (response : Response) (p : page) : page :=
  let p := setVizRunning true p in
  let p := setLogs (fun _ => []) p in
  let '(trace, completion) := streamVisualization JSON_parse response in
  let '(p, failure) := viz_loop 0 trace p in
  let catch e p := setLogs (fun prev => prev ++ [Failure e]) p in
  let p :=
    match failure, completion with
    | Some e, _ => catch e p
    | None, Thrown message => catch (Error message) p
    | None, Returned => p
    end in
  setVizRunning false p.

(** The events that make [runVizAgent] set the plot address. *)
Definition plots (event : value) : bool :=
  match get (Of event) (lit "type") with
  | Some type =>
      is_string type (lit "viz_result")
      && match get (Of event) (lit "data") with
         | Some data =>
             match get data (lit "success") with
             | Some success => truthy is_zero success
             | None => false
             end
         | None => false
         end
  | None => false
  end.

End Agent.

End Viz.

(* ================================================================== *)
(** ** [ZenChat] *)
(* ================================================================== *)

Module Chat.
Import Types Ask.
Local Open Scope N_scope.

(** A string of this module stands for the JavaScript string with the
    same code units, all below 256. *)

(** The entries of [messages], one constructor for each of the three
    object literals of [handleSubmit]: the user's question; the answer,
    whose [content], [grounded] and [session] are those of the response;
    the failure notice, whose [content] is built from the error and whose
    [grounded] is [false].  The identifier is the clock reading it is
    printed from. *)
Inductive message : Type :=
| UserMessage (id : N) (content : string)
| AssistantMessage (id : N) (response : ChatResponse)
| AssistantFailure (id : N) (error : string).

(** The [useState] cells of [ZenChat]. *)
Record chat := mk_chat {
  messages : list message;
  input : string;
  isLoading : bool
}.

(** [useState([])], [useState('')], [useState(false)]. *)
Definition initial : chat := mk_chat [] "" false.

(** White space and line terminators among the code units below 256. *)
Definition is_space (a : ascii) : bool :=
  let c := N_of_ascii a in
  (c =? 9) || (c =? 10) || (c =? 11) || (c =? 12) || (c =? 13)
  || (c =? 32) || (c =? 160).

Fixpoint trimStart (s : string) : string :=
  match s with
  | EmptyString => EmptyString
  | String a s' => if is_space a then trimStart s' else s
  end.

Fixpoint trimEnd (s : string) : string :=
  match s with
  | EmptyString => EmptyString
  | String a s' =>
      match trimEnd s' with
      | EmptyString => if is_space a then EmptyString else String a EmptyString
      | String b t => String a (String b t)
      end
  end.

(** [s.trim()] *)
Definition trim (s : string) : string := trimEnd (trimStart s).

(** [!s] for a string. *)
Definition is_empty (s : string) : bool :=
  match s with
  | EmptyString => true
  | String _ _ => false
  end.

(** [handleSubmit] up to its [await]: [None] when the guard returns, else
    the state while the request is out.  [now] is [Date.now()]. *)
Definition handleSubmit_sent (question : string) (now : N) (s : chat)
  : option chat :=
  if is_empty (trim question) || isLoading s then None
  else
    Some (mk_chat (messages s ++ [UserMessage now question]) "" true).

(** [handleSubmit] after its [await], on the state of that moment: the
    [try], [catch] and [finally] blocks.  [None] when the promise never
    settles.  [later] is the second [Date.now()]. *)
Definition handleSubmit_settled (outcome : promise ChatResponse) (later : N)
    (s : chat) : option chat :=
  match outcome with
  | Fulfilled response =>
      Some (mk_chat (messages s ++ [AssistantMessage (later + 1) response])
              (input s) false)
  | Rejected error =>
      Some (mk_chat (messages s ++ [AssistantFailure (later + 1) error])
              (input s) false)
  | Pending => None
  end.

(** How a call of [handleSubmit] ends when nothing else touches the chat
    in between. *)
Inductive outcome : Type :=
| Ignored
| Waiting (s : chat)
| Done (s : chat).

Definition handleSubmit (question : string) (now later : N) (b : backend)
    (s : chat) : outcome :=
  match handleSubmit_sent question now s with
  | None => Ignored
  | Some sent =>
      match handleSubmit_settled
              (askQuestion (mk_chat_request question) b) later sent with
      | Some s' => Done s'
      | None => Waiting sent
      end
  end.

Definition handleClearConversation (s : chat) : chat :=
  mk_chat [] (input s) (isLoading s).

(** All the characters of a string are white space. *)
Fixpoint blank (s : string) : bool :=
  match s with
  | EmptyString => true
  | String a s' => is_space a && blank s'
  end.

End Chat.

(* ================================================================== *)
(** * Properties *)
(* ================================================================== *)

(** ** Lines of a text *)

Module JSFacts.
Import JS.
Local Open Scope N_scope.

Lemma split_not_nil (s : jsstring) : split s <> [].
Proof.
  destruct s as [|c s]; simpl; [discriminate|].
  destruct (c =? LF); [discriminate|].
  destruct (split s); discriminate.
Qed.

Lemma removelast_cons {A} (x : A) (l : list A) :
  l <> [] -> removelast (x :: l) = x :: removelast l.
Proof. destruct l; [congruence | reflexivity]. Qed.

Lemma last_cons {A} (x d : A) (l : list A) :
  l <> [] -> last (x :: l) d = last l d.
Proof. destruct l; [congruence | reflexivity]. Qed.

Lemma last_app_r {A} (l l' : list A) (d : A) :
  l' <> [] -> last (l ++ l') d = last l' d.
Proof.
  intros H. induction l as [|x l IH]; [reflexivity|].
  rewrite <- app_comm_cons, last_cons; [assumption|].
  destruct l; [assumption | discriminate].
Qed.

Lemma split_decompose (s : jsstring) :
  split s = (complete_lines s ++ [partial_line s])%list.
Proof.
  unfold complete_lines, partial_line.
  apply app_removelast_last, split_not_nil.
Qed.

Lemma pop_split (s : jsstring) :
  pop (split s) = (complete_lines s, Some (partial_line s)).
Proof.
  unfold pop, complete_lines, partial_line.
  pose proof (split_not_nil s) as H.
  destruct (split s); [congruence | reflexivity].
Qed.

Lemma or_empty_Some (s : jsstring) : or_empty (Some s) = s.
Proof. destruct s; reflexivity. Qed.

(** Appending text only touches the unfinished last line. *)
Lemma split_app (a b : jsstring) :
  split (a ++ b) = (complete_lines a ++ split (partial_line a ++ b))%list.
Proof.
  unfold complete_lines, partial_line.
  induction a as [|c a IH]; [reflexivity|].
  pose proof (split_not_nil a) as Hne.
  cbn [app split].
  destruct (c =? LF) eqn:Hc.
  - rewrite removelast_cons, last_cons by assumption.
    rewrite IH. reflexivity.
  - rewrite IH.
    destruct (split a) as [|piece pieces]; [congruence|].
    destruct pieces as [|piece' pieces].
    + cbn [removelast last app split]. rewrite Hc. reflexivity.
    + rewrite (removelast_cons piece), (last_cons piece) by discriminate.
      rewrite (removelast_cons (c :: piece)), (last_cons (c :: piece))
        by discriminate.
      reflexivity.
Qed.

Lemma complete_lines_app (a b : jsstring) :
  complete_lines (a ++ b)
  = (complete_lines a ++ complete_lines (partial_line a ++ b))%list.
Proof.
  unfold complete_lines at 1. rewrite split_app.
  rewrite removelast_app by apply split_not_nil. reflexivity.
Qed.

Lemma partial_line_app (a b : jsstring) :
  partial_line (a ++ b) = partial_line (partial_line a ++ b).
Proof.
  unfold partial_line at 1. rewrite split_app.
  rewrite last_app_r by apply split_not_nil. reflexivity.
Qed.

(** A text without a line feed is one unfinished line. *)
Lemma split_no_LF (s : jsstring) : ~ In LF s -> split s = [s].
Proof.
  induction s as [|c s IH]; intros H; [reflexivity|].
  simpl. destruct (c =? LF) eqn:Hc.
  - apply N.eqb_eq in Hc. exfalso. apply H. left. assumption.
  - rewrite IH; [reflexivity|]. intros Hin. apply H. right. assumption.
Qed.

Lemma complete_lines_no_LF (s : jsstring) : ~ In LF s -> complete_lines s = [].
Proof. intros H. unfold complete_lines. rewrite split_no_LF by assumption. reflexivity. Qed.

Lemma partial_line_no_LF_id (s : jsstring) : ~ In LF s -> partial_line s = s.
Proof. intros H. unfold partial_line. rewrite split_no_LF by assumption. reflexivity. Qed.

(** No piece of a split contains a line feed. *)
Lemma split_pieces_no_LF (s : jsstring) :
  Forall (fun piece => ~ In LF piece) (split s).
Proof.
  induction s as [|c s IH].
  - constructor; [intros []|constructor].
  - simpl. destruct (c =? LF) eqn:Hc.
    + constructor; [intros []|assumption].
    + destruct (split s) as [|piece pieces].
      * constructor; [|constructor]. intros [E|[]].
        subst c. rewrite N.eqb_refl in Hc. discriminate.
      * inversion IH as [|? ? Hp Hps]; subst.
        constructor; [|assumption]. intros [E|Hin].
        -- subst c. rewrite N.eqb_refl in Hc. discriminate.
        -- exact (Hp Hin).
Qed.

Lemma partial_line_no_LF (s : jsstring) : ~ In LF (partial_line s).
Proof.
  pose proof (split_pieces_no_LF s) as H.
  rewrite split_decompose in H.
  apply Forall_app in H. destruct H as [_ H].
  inversion H; assumption.
Qed.

(** A text that ends with a line feed has no unfinished line. *)
Lemma split_line (l rest : jsstring) :
  ~ In LF l -> split (l ++ LF :: rest) = l :: split rest.
Proof.
  induction l as [|c l IH]; intros H.
  - reflexivity.
  - cbn [app split]. destruct (c =? LF) eqn:Hc.
    + apply N.eqb_eq in Hc. exfalso. apply H. left. assumption.
    + rewrite IH; [reflexivity|]. intros Hin. apply H. right. assumption.
Qed.

Lemma str_eqb_eq (a b : jsstring) : str_eqb a b = true <-> a = b.
Proof.
  revert b. induction a as [|x a IH]; intros [|y b]; simpl;
    try (split; [discriminate|discriminate]); [tauto|].
  rewrite andb_true_iff, N.eqb_eq, IH. split.
  - intros [-> ->]. reflexivity.
  - intros E. inversion E. auto.
Qed.

Lemma str_eqb_neq (a b : jsstring) : a <> b -> str_eqb a b = false.
Proof.
  intros H. destruct (str_eqb a b) eqn:E; [|reflexivity].
  apply str_eqb_eq in E. contradiction.
Qed.

Lemma startsWith_app (prefix s : jsstring) : startsWith (prefix ++ s) prefix = true.
Proof.
  induction prefix as [|p prefix IH]; [reflexivity|].
  simpl. rewrite N.eqb_refl, IH. reflexivity.
Qed.

Lemma slice_app (prefix s : jsstring) :
  slice (prefix ++ s) (List.length prefix) = s.
Proof.
  unfold slice. induction prefix; [reflexivity|assumption].
Qed.

End JSFacts.

(** ** The decoder *)

Module DecoderFacts.
Import JS Decoder JSFacts.
Local Open Scope N_scope.

(** Decoding is a left-to-right pass over the bytes: a chunk boundary
    changes nothing. *)
Lemma decode_app (d : TextDecoder) (a b : list byte) :
  decode d (a ++ b) =
    let '(d1, t1) := decode d a in
    let '(d2, t2) := decode d1 b in (d2, (t1 ++ t2)%list).
Proof.
  revert d. induction a as [|x a IH]; intros d; simpl.
  - destruct (decode d b); reflexivity.
  - destruct (decode_byte d x) as [d1 o1]. rewrite IH.
    destruct (decode d1 a) as [d2 o2]. destruct (decode d2 b).
    rewrite app_assoc. reflexivity.
Qed.

Lemma LF_free_spec (s : jsstring) : LF_free s = true <-> ~ In LF s.
Proof.
  unfold LF_free. rewrite negb_true_iff. split.
  - intros H Hin. assert (existsb (N.eqb LF) s = true) as E.
    { apply existsb_exists. exists LF. split; [assumption | apply N.eqb_refl]. }
    congruence.
  - intros H. destruct (existsb (N.eqb LF) s) eqn:E; [|reflexivity].
    apply existsb_exists in E. destruct E as [x [Hin Hx]].
    apply N.eqb_eq in Hx. subst x. contradiction.
Qed.

Lemma lead_sound (b : byte) : sound (fst (utf8_lead (Byte.to_N b))) = true.
Proof. destruct b; reflexivity. Qed.

Lemma lead_LF_free (b : byte) :
  b <> x0a -> LF_free (snd (utf8_lead (Byte.to_N b))) = true.
Proof. destruct b; intros H; try reflexivity. congruence. Qed.

Lemma lor_shiftl_land (cp b : N) :
  N.lor (N.shiftl cp 6) (N.land b 0x3F) = cp * 64 + b mod 64.
Proof.
  rewrite N.shiftl_mul_pow2.
  change 0x3F with (N.ones 6). rewrite N.land_ones.
  change (2 ^ 6) with 64.
  assert (N.land (cp * 64) (b mod 64) = 0) as Hdisjoint.
  { apply N.bits_inj. intros n. rewrite N.land_spec, N.bits_0.
    destruct (N.lt_ge_cases n 6) as [Hn|Hn].
    - change 64 with (2 ^ 6). rewrite N.mul_pow2_bits_low by assumption.
      reflexivity.
    - change 64 with (2 ^ 6). rewrite N.mod_pow2_bits_high by assumption.
      apply andb_false_r. }
  rewrite <- N.lxor_lor by assumption.
  symmetry. apply N.add_nocarry_lxor. assumption.
Qed.

(** A continuation byte accepted in a sound state gives a code point of
    at least 16. *)
Lemma continuation_lower_bound (u : utf8_state) (b : N) :
  sound u = true -> (bytes_needed u =? 0) = false ->
  in_range (lower_boundary u) (upper_boundary u) b = true ->
  16 <= N.lor (N.shiftl (code_point u) 6) (N.land b 0x3F).
Proof.
  unfold sound, in_range. intros Hs Hn Hr. rewrite Hn in Hs. simpl in Hs.
  rewrite lor_shiftl_land.
  apply andb_true_iff in Hr. destruct Hr as [Hlo Hhi].
  apply N.leb_le in Hlo, Hhi.
  apply orb_true_iff in Hs. destruct Hs as [Hcp|Hb].
  - apply negb_true_iff, N.eqb_neq in Hcp.
    generalize (b mod 64). intros r. lia.
  - apply andb_true_iff in Hb. destruct Hb as [Hl Hu].
    apply N.leb_le in Hl, Hu.
    pose proof (N.div_mod' b 64) as Hdiv.
    pose proof (N.mod_upper_bound b 64 ltac:(discriminate)) as Hmod.
    revert Hdiv Hmod. generalize (b mod 64), (b / 64). intros r q Hdiv Hmod.
    lia.
Qed.

Lemma handler_sound (u : utf8_state) (b : byte) :
  sound u = true -> sound (fst (utf8_handler u (Byte.to_N b))) = true.
Proof.
  intros Hs. unfold utf8_handler.
  destruct (bytes_needed u =? 0) eqn:Hn; [apply lead_sound|].
  destruct (in_range (lower_boundary u) (upper_boundary u) (Byte.to_N b)) eqn:Hr;
    cbn [negb].
  - pose proof (continuation_lower_bound u _ Hs Hn Hr) as Hcp.
    cbv zeta.
    destruct (bytes_seen u + 1 =? bytes_needed u); [reflexivity|].
    unfold sound. cbn [bytes_needed code_point fst].
    rewrite Hn. cbn [orb].
    assert (N.lor (N.shiftl (code_point u) 6) (N.land (Byte.to_N b) 0x3F) <> 0) as Hne by lia.
    apply N.eqb_neq in Hne. rewrite Hne. reflexivity.
  - pose proof (lead_sound b) as Hl.
    destruct (utf8_lead (Byte.to_N b)). exact Hl.
Qed.

Lemma handler_LF_free (u : utf8_state) (b : byte) :
  sound u = true -> b <> x0a ->
  LF_free (snd (utf8_handler u (Byte.to_N b))) = true.
Proof.
  intros Hs Hb. unfold utf8_handler.
  destruct (bytes_needed u =? 0) eqn:Hn; [apply lead_LF_free; assumption|].
  destruct (in_range (lower_boundary u) (upper_boundary u) (Byte.to_N b)) eqn:Hr;
    cbn [negb].
  - pose proof (continuation_lower_bound u _ Hs Hn Hr) as Hcp.
    cbv zeta.
    destruct (bytes_seen u + 1 =? bytes_needed u); [|reflexivity].
    cbn [snd]. apply LF_free_spec. intros [E|[]]. unfold LF in E. lia.
  - pose proof (lead_LF_free b Hb) as Hl.
    destruct (utf8_lead (Byte.to_N b)). exact Hl.
Qed.

Lemma code_units_LF_free (cp : N) : cp <> LF -> ~ In LF (code_units cp).
Proof.
  unfold code_units, LF. intros Hcp.
  destruct (cp <? 0x10000).
  - intros [E|[]]. congruence.
  - intros [E|[E|[]]]; lia.
Qed.

Lemma serialize_LF_free (bom_seen : bool) (cps : list N) :
  ~ In LF cps -> ~ In LF (snd (serialize bom_seen cps)).
Proof.
  revert bom_seen. induction cps as [|cp cps IH]; intros bom_seen H.
  - intros [].
  - assert (cp <> LF) as Hcp by (intros E; apply H; left; auto).
    assert (~ In LF cps) as Hcps by (intros Hin; apply H; right; exact Hin).
    simpl. destruct (negb bom_seen && (cp =? BOM)).
    + apply IH. assumption.
    + specialize (IH true Hcps). destruct (serialize true cps) as [seen out].
      cbn [snd] in *. intros Hin. apply in_app_or in Hin.
      destruct Hin as [Hin|Hin]; [|contradiction].
      exact (code_units_LF_free cp Hcp Hin).
Qed.

Lemma decode_byte_sound (d : TextDecoder) (b : byte) :
  sound (utf8 d) = true -> sound (utf8 (fst (decode_byte d b))) = true.
Proof.
  intros Hs. unfold decode_byte.
  pose proof (handler_sound (utf8 d) b Hs) as H.
  destruct (utf8_handler (utf8 d) (Byte.to_N b)) as [u cps].
  destruct (serialize (BOM_seen d) cps). exact H.
Qed.

Lemma decode_byte_LF_free (d : TextDecoder) (b : byte) :
  sound (utf8 d) = true -> b <> x0a -> ~ In LF (snd (decode_byte d b)).
Proof.
  intros Hs Hb. unfold decode_byte.
  pose proof (handler_LF_free (utf8 d) b Hs Hb) as H.
  destruct (utf8_handler (utf8 d) (Byte.to_N b)) as [u cps].
  cbn [snd] in H. apply LF_free_spec in H.
  pose proof (serialize_LF_free (BOM_seen d) cps H) as H'.
  destruct (serialize (BOM_seen d) cps). exact H'.
Qed.

Lemma decode_sound (d : TextDecoder) (value : list byte) :
  sound (utf8 d) = true -> sound (utf8 (fst (decode d value))) = true.
Proof.
  revert d. induction value as [|b value IH]; intros d Hs; [assumption|].
  simpl. pose proof (decode_byte_sound d b Hs) as H1.
  destruct (decode_byte d b) as [d1 o1]. specialize (IH d1 H1).
  destruct (decode d1 value). exact IH.
Qed.

(** Only the byte 0x0A decodes to a line feed. *)
Lemma decode_LF_free (d : TextDecoder) (value : list byte) :
  sound (utf8 d) = true -> ~ In x0a value -> ~ In LF (snd (decode d value)).
Proof.
  revert d. induction value as [|b value IH]; intros d Hs Hv.
  - intros [].
  - simpl. pose proof (decode_byte_sound d b Hs) as H1.
    assert (b <> x0a) as Hb by (intros E; apply Hv; left; auto).
    pose proof (decode_byte_LF_free d b Hs Hb) as H2.
    destruct (decode_byte d b) as [d1 o1].
    assert (~ In x0a value) as Hv' by (intros Hin; apply Hv; right; exact Hin).
    specialize (IH d1 H1 Hv'). destruct (decode d1 value) as [d2 o2].
    cbn [snd fst] in *. intros Hin. apply in_app_or in Hin. tauto.
Qed.

End DecoderFacts.

(** ** The generators *)

Module SseFacts.
Import JS Decoder Sse Json JSFacts DecoderFacts.

Section Loops.

Variable V : Type.
Variable JSON_parse : jsstring -> option V.

Local Notation "'for_lines'" := (reconciliation_for JSON_parse).
Local Notation "'while_chunks'" := (reconciliation_while JSON_parse).

(** The [for] loop over two arrays in a row: the second is only reached
    when the first did not [return]. *)
Lemma reconciliation_for_app (l1 l2 : list jsstring) :
  for_lines (l1 ++ l2) =
    if snd (for_lines l1) then for_lines l1
    else ((fst (for_lines l1) ++ fst (for_lines l2))%list, snd (for_lines l2)).
Proof.
  induction l1 as [|line l1 IH].
  - simpl. destruct (for_lines l2); reflexivity.
  - cbn [app reconciliation_for].
    destruct (startsWith line (lit "data: ")); [|exact IH].
    destruct (str_eqb (slice line 6) (lit "[DONE]")); [reflexivity|].
    destruct (JSON_parse (slice line 6)); unfold and_then; rewrite IH;
      destruct (for_lines l1) as [t1 r1]; cbn [fst snd];
      destruct r1; reflexivity.
Qed.

(** The [while] loop yields what the [for] loop yields on all the
    complete lines of the text still to come, taken at once. *)
Lemma reconciliation_while_spec (chunks : list (list byte)) :
  forall (d : TextDecoder) (buffer : jsstring),
    ~ In LF buffer ->
    while_chunks d buffer chunks
    = fst (for_lines (complete_lines (buffer ++ snd (decode d (List.concat chunks))))).
Proof.
  induction chunks as [|value chunks IH]; intros d buffer Hbuf.
  - cbn [List.concat decode snd reconciliation_while].
    rewrite app_nil_r, complete_lines_no_LF by assumption. reflexivity.
  - cbn [List.concat reconciliation_while]. rewrite decode_app.
    destruct (decode d value) as [d1 text].
    rewrite pop_split, or_empty_Some.
    specialize (IH d1 (partial_line (buffer ++ text))
                  (partial_line_no_LF _)).
    destruct (decode d1 (List.concat chunks)) as [d2 text2].
    cbn [snd] in *.
    rewrite app_assoc, (complete_lines_app (buffer ++ text) text2),
      reconciliation_for_app.
    destruct (for_lines (complete_lines (buffer ++ text))) as [trace returned].
    cbn [fst snd]. destruct returned; [reflexivity|].
    rewrite IH. reflexivity.
Qed.

(** [streamReconciliation] on a delivered body: the [for] loop, run once
    over the complete lines of the whole text. *)
Lemma streamReconciliation_delivered (chunks : list (list byte)) :
  streamReconciliation JSON_parse (delivered chunks)
  = (fst (for_lines (body_lines chunks)), Returned).
Proof.
  unfold streamReconciliation, delivered, body_lines, body_text.
  cbn [ok body negb]. f_equal.
  apply (reconciliation_while_spec chunks new_TextDecoder []).
  intros [].
Qed.

Local Notation "'for_lines_viz'" := (visualization_for JSON_parse).

Lemma visualization_for_agrees (lines : list jsstring) :
  for_lines lines = for_lines_viz lines.
Proof.
  induction lines as [|line lines IH]; [reflexivity|].
  cbn [reconciliation_for visualization_for]. rewrite IH. reflexivity.
Qed.

Lemma visualization_while_agrees (chunks : list (list byte)) :
  forall (d : TextDecoder) (buffer : jsstring),
    while_chunks d buffer chunks = visualization_while JSON_parse d buffer chunks.
Proof.
  induction chunks as [|value chunks IH]; intros d buffer; [reflexivity|].
  cbn [reconciliation_while visualization_while].
  destruct (decode d value) as [d1 text].
  destruct (pop (split (buffer ++ text))) as [lines popped].
  rewrite <- (visualization_for_agrees lines).
  destruct (for_lines lines) as [trace returned].
  rewrite IH. reflexivity.
Qed.

(** The sentinel line makes the [for] loop return at once. *)
Lemma reconciliation_for_sentinel (after : list jsstring) :
  for_lines (lit "data: [DONE]" :: after) = ([], true).
Proof. reflexivity. Qed.

(** A line [data: payload], for a payload that is not the sentinel, goes
    to [JSON.parse]. *)
Lemma reconciliation_for_data (payload : jsstring) (rest : list jsstring) :
  payload <> lit "[DONE]" ->
  for_lines ((lit "data: " ++ payload)%list :: rest) =
    match JSON_parse payload with
    | Some event => and_then (Yield event) (for_lines rest)
    | None => and_then (ConsoleError payload) (for_lines rest)
    end.
Proof.
  intros Hp. cbn [reconciliation_for].
  rewrite startsWith_app.
  change 6%nat with (List.length (lit "data: ")). rewrite slice_app.
  rewrite (str_eqb_neq _ _ Hp). reflexivity.
Qed.

End Loops.

(** C1.  Chunk boundaries do not matter: whatever the partition of a body
    into chunks (inside a line, inside a multi-byte UTF-8 sequence, with
    empty chunks), [streamReconciliation] yields and logs exactly what it
    does when the same bytes arrive as one chunk.  This holds for every
    byte stream, well formed or not. *)
Theorem streamReconciliation_chunking (V : Type)
    (JSON_parse : jsstring -> option V) (chunks : list (list byte)) :
  streamReconciliation JSON_parse (delivered chunks)
  = streamReconciliation JSON_parse (delivered [List.concat chunks]).
Proof.
  rewrite !streamReconciliation_delivered.
  unfold body_lines, body_text. cbn [List.concat].
  rewrite app_nil_r. reflexivity.
Qed.

(** The euro sign (E2 82 AC) cut after its second byte, in the middle of
    a line: the thought arrives whole. *)
Example euro_sign_across_chunks :
  streamReconciliation Json.JSON_parse
    (delivered [ (Samples.bytes "data: {'type':'thought','da" ++ [])%list;
                 (Samples.bytes "ta':'" ++ [xe2; x82])%list;
                 (xac :: Samples.bytes "'}|") ])
  = ([Yield (JObject [(lit "type", JString (lit "thought"));
                      (lit "data", JString [0x20AC%N])])], Returned).
Proof. vm_compute. reflexivity. Qed.

(** C2.  When the body has a line [data: [DONE]], the generator returns
    at that line: what it yields and logs is what the lines before the
    sentinel give, whatever lines follow it. *)
Theorem streamReconciliation_sentinel (V : Type)
    (JSON_parse : jsstring -> option V) (chunks : list (list byte))
    (before after : list jsstring) :
  body_lines chunks = (before ++ lit "data: [DONE]" :: after)%list ->
  streamReconciliation JSON_parse (delivered chunks)
  = (fst (reconciliation_for JSON_parse before), Returned).
Proof.
  intros H. rewrite streamReconciliation_delivered, H.
  rewrite reconciliation_for_app, reconciliation_for_sentinel.
  destruct (reconciliation_for JSON_parse before) as [trace returned].
  cbn [fst snd]. destruct returned; cbn [fst]; [|rewrite app_nil_r]; reflexivity.
Qed.

Lemma streamReconciliation_sentinel_witness :
  events (fst (streamReconciliation Json.JSON_parse
    (delivered [Samples.bytes "data: {'type':'thought','data':'a'}|data: [DO";
                Samples.bytes "NE]|data: {'type':'thought','data':'b'}|"])))
  = [Samples.thought "a"].
Proof.
  rewrite (streamReconciliation_sentinel _ Json.JSON_parse _
             [Samples.text "data: {'type':'thought','data':'a'}"]
             [Samples.text "data: {'type':'thought','data':'b'}"]).
  - vm_compute. reflexivity.
  - vm_compute. reflexivity.
Defined.

(** C3.  A [data: ] line whose payload [JSON.parse] rejects yields no
    event: the failure is logged and the loop goes on with the next line.
    On the body of the specification's example, exactly one event comes
    out, the thought [x]. *)
Theorem streamReconciliation_malformed_payload :
  (forall (V : Type) (JSON_parse : jsstring -> option V)
          (payload : jsstring) (rest : list jsstring),
      JSON_parse payload = None ->
      payload <> lit "[DONE]" ->
      reconciliation_for JSON_parse ((lit "data: " ++ payload)%list :: rest)
      = (ConsoleError payload :: fst (reconciliation_for JSON_parse rest),
         snd (reconciliation_for JSON_parse rest)))
  /\ streamReconciliation Json.JSON_parse
       (delivered
          [Samples.bytes "data: {not json}|data: {'type':'thought','data':'x'}|"])
     = ([ConsoleError (Samples.text "{not json}"); Yield (Samples.thought "x")],
        Returned).
Proof.
  split.
  - intros V JSON_parse payload rest Hparse Hp.
    rewrite reconciliation_for_data by assumption.
    rewrite Hparse. reflexivity.
  - vm_compute. reflexivity.
Qed.

Lemma streamReconciliation_malformed_payload_witness :
  events (fst (reconciliation_for Json.JSON_parse
    [(lit "data: " ++ Samples.text "{not json}")%list;
     Samples.text "data: {'type':'thought','data':'x'}"]))
  = [Samples.thought "x"].
Proof.
  rewrite (proj1 streamReconciliation_malformed_payload _ Json.JSON_parse
             (Samples.text "{not json}")
             [Samples.text "data: {'type':'thought','data':'x'}"]).
  - vm_compute. reflexivity.
  - vm_compute. reflexivity.
  - vm_compute. discriminate.
Defined.

(** C4.  Bytes after the last line feed of a body are dropped when the
    reader reports the end: a body followed by a fragment without a line
    feed, in whatever chunks, gives exactly what the body alone gives. *)
Theorem streamReconciliation_unterminated_tail (V : Type)
    (JSON_parse : jsstring -> option V) (chunks : list (list byte))
    (body fragment : list byte) :
  List.concat chunks = (body ++ fragment)%list ->
  ~ In x0a fragment ->
  streamReconciliation JSON_parse (delivered chunks)
  = streamReconciliation JSON_parse (delivered [body]).
Proof.
  intros Hchunks Hfrag.
  rewrite !streamReconciliation_delivered.
  unfold body_lines, body_text. rewrite Hchunks.
  cbn [List.concat]. rewrite app_nil_r, decode_app.
  pose proof (decode_sound new_TextDecoder body eq_refl) as Hsound.
  destruct (decode new_TextDecoder body) as [d1 text1]. cbn [fst] in Hsound.
  pose proof (decode_LF_free d1 fragment Hsound Hfrag) as Hfree.
  destruct (decode d1 fragment) as [d2 text2]. cbn [snd] in *.
  rewrite complete_lines_app.
  rewrite (complete_lines_no_LF (partial_line text1 ++ text2)), app_nil_r;
    [reflexivity|].
  intros Hin. apply in_app_or in Hin. destruct Hin as [Hin|Hin].
  - exact (partial_line_no_LF text1 Hin).
  - exact (Hfree Hin).
Qed.

Lemma streamReconciliation_unterminated_tail_witness :
  events (fst (streamReconciliation Json.JSON_parse
    (delivered [Samples.bytes "data: {'type':'thought','data':'a'}|da";
                Samples.bytes "ta: {'type':'thought','data':'b'}"])))
  = [Samples.thought "a"].
Proof.
  rewrite (streamReconciliation_unterminated_tail _ Json.JSON_parse _
             (Samples.bytes "data: {'type':'thought','data':'a'}|")
             (Samples.bytes "data: {'type':'thought','data':'b'}")).
  - vm_compute. reflexivity.
  - vm_compute. reflexivity.
  - vm_compute. intuition discriminate.
Defined.

(** C9.  Whatever [JSON.parse] returns for the payload of a [data: ] line
    is yielded as it is; the loop never looks at its [type].  On a body
    with an unknown discriminator, an object without [type] and a bare
    number, all three values come out. *)
Theorem streamReconciliation_pass_through :
  (forall (V : Type) (JSON_parse : jsstring -> option V)
          (payload : jsstring) (event : V) (rest : list jsstring),
      JSON_parse payload = Some event ->
      payload <> lit "[DONE]" ->
      reconciliation_for JSON_parse ((lit "data: " ++ payload)%list :: rest)
      = (Yield event :: fst (reconciliation_for JSON_parse rest),
         snd (reconciliation_for JSON_parse rest)))
  /\ streamReconciliation Json.JSON_parse
       (delivered
          [Samples.bytes "data: {'type':'bogus','data':1}|data: {'data':'x'}|data: 42|"])
     = ([Yield (JObject [(lit "type", JString (lit "bogus"));
                         (lit "data", JNumber (lit "1"))]);
         Yield (JObject [(lit "data", JString (lit "x"))]);
         Yield (JNumber (lit "42"))], Returned).
Proof.
  split.
  - intros V JSON_parse payload event rest Hparse Hp.
    rewrite reconciliation_for_data by assumption.
    rewrite Hparse. reflexivity.
  - vm_compute. reflexivity.
Qed.

Lemma streamReconciliation_pass_through_witness :
  events (fst (reconciliation_for Json.JSON_parse
    [(lit "data: " ++ Samples.text "{'type':'bogus'}")%list;
     Samples.text "data: 42"]))
  = [JObject [(lit "type", JString (lit "bogus"))]; JNumber (lit "42")].
Proof.
  rewrite (proj1 streamReconciliation_pass_through _ Json.JSON_parse
             (Samples.text "{'type':'bogus'}")
             (JObject [(lit "type", JString (lit "bogus"))])
             [Samples.text "data: 42"]).
  - vm_compute. reflexivity.
  - vm_compute. reflexivity.
  - vm_compute. discriminate.
Defined.

(** C10.  On every delivered body, [streamVisualization] does exactly
    what [streamReconciliation] does: the two decode-and-dispatch loops
    are the same function of the chunks. *)
Theorem streamVisualization_agrees (V : Type)
    (JSON_parse : jsstring -> option V) (chunks : list (list byte)) :
  streamReconciliation JSON_parse (delivered chunks)
  = streamVisualization JSON_parse (delivered chunks).
Proof.
  unfold streamReconciliation, streamVisualization, delivered.
  cbn [ok body negb].
  rewrite (visualization_while_agrees V JSON_parse chunks). reflexivity.
Qed.

(** The two generators are told apart only by the request they send and
    by the message they throw on a failed response. *)
Remark stream_generators_differ_on_failure (V : Type)
    (JSON_parse : jsstring -> option V) (b : option (list (list byte))) :
  streamReconciliation JSON_parse (mk_response false b)
  <> streamVisualization JSON_parse (mk_response false b).
Proof. unfold streamReconciliation, streamVisualization. cbn. discriminate. Qed.

End SseFacts.

(** ** The session provider *)

Module SessionFacts.
Import Types Session.

(** C5, as the code has it.  The context's [setSessionData] with a
    summary sets [hasSession] and stores the summary; it does not write
    [backendOnline], which keeps the value it had. *)
Theorem setSessionData_adopts (s : state) (data : ReconciliationSummary) :
  let s' := setSessionData (Some data) s in
  hasSession s' = true
  /\ sessionData s' = Some data
  /\ backendOnline s' = backendOnline s.
Proof. cbn. auto. Qed.

(** C5, as stated, fails: after a failed refresh the provider is offline,
    and adopting a summary leaves it offline. *)
Lemma setSessionData_from_offline :
  let s := refreshSession NetworkError initial in
  let s' := setSessionData (Some Samples.summary_a) s in
  backendOnline s' = false /\ ~ Online_HasSession s'.
Proof.
  cbn. split; [reflexivity|].
  unfold Online_HasSession. cbn. intros [H _]. discriminate.
Qed.

(** C6.  A refresh whose probe throws or answers with a non-success
    status leaves the provider offline, with no session flagged, whatever
    the state before. *)
Theorem refreshSession_failure (s : state) (p : probe) :
  probe_fails p -> Offline (refreshSession p s).
Proof.
  intros Hp. unfold Offline, refreshSession.
  destruct p as [|ok json]; cbn in *.
  - auto.
  - subst ok. cbn. auto.
Qed.

Lemma refreshSession_failure_witness :
  Offline (refreshSession (Answer false None)
             (mk_state true (Some Samples.summary_a) true)).
Proof. apply refreshSession_failure. reflexivity. Defined.

(** More generally, whenever [checkHealth] throws (also on a body that is
    not a health record) the provider ends offline. *)
Remark refreshSession_throws (s : state) (p : probe) (reason : string) :
  checkHealth p = Throws reason -> Offline (refreshSession p s).
Proof.
  intros H. unfold Offline, refreshSession. rewrite H. cbn. auto.
Qed.

(** The cached summary itself is left in place by a failed refresh; only
    the two flags change. *)
Remark refreshSession_failure_keeps_data (s : state) (p : probe) :
  probe_fails p -> sessionData (refreshSession p s) = sessionData s.
Proof.
  intros Hp. unfold refreshSession.
  destruct p as [|ok json]; cbn in *; [reflexivity|].
  subst ok. reflexivity.
Qed.

(** C7.  A refresh whose probe succeeds with [has_session = false] moves
    the provider to online without a session and clears the cached
    summary, whatever the state before. *)
Theorem refreshSession_no_session (s : state) (status : string)
    (file : option string) :
  let s' := refreshSession (Answer true (Some (mk_health status false file))) s in
  Online_NoSession s' /\ sessionData s' = None.
Proof. unfold Online_NoSession. cbn. auto. Qed.

End SessionFacts.

(** ** The callers of [POST /ask] *)

Module AskFacts.
Import Types Ask.
Local Open Scope N_scope.

(** C8, as the code has it.  The request of [InsightCard.fetchInsight]
    carries [AbortSignal.timeout(25000)]: when the backend stays silent,
    or answers after 25 seconds or more, the card ends in its error
    state.  The request of [askQuestion] carries no signal. *)
Theorem fetchInsight_timeout (data : ReconciliationSummary) (c : card) :
  signal (fetchInsight_request data) = Some 25000
  /\ fetchInsight (Some data) Silent c = Fulfilled (failed c)
  /\ (forall (extra : N) (ok : bool) (json : option ChatResponse),
        fetchInsight (Some data) (Answers (25000 + extra) ok json) c
        = Fulfilled (failed c))
  /\ (forall request : ChatRequest,
        signal (askQuestion_request request) = None).
Proof.
  repeat split.
  intros extra ok json. unfold fetchInsight, fetch. cbn [signal fetchInsight_request].
  assert ((25000 + extra <? 25000) = false) as E by (apply N.ltb_ge; lia).
  rewrite E. reflexivity.
Qed.

(** C8, as stated, fails: a chat question goes out without a timeout,
    and with a silent backend [askQuestion] never settles. *)
Lemma askQuestion_no_timeout :
  post_ask (askQuestion_request (mk_chat_request "q"))
  /\ signal (askQuestion_request (mk_chat_request "q")) = None
  /\ askQuestion (mk_chat_request "q") Silent = Pending
  /\ ~ (forall r : Request, post_ask r -> signal r = Some 25000).
Proof.
  repeat split.
  - constructor.
  - intros H. specialize (H _ (from_chat (mk_chat_request "q"))). discriminate.
Qed.

End AskFacts.

(** ** More on the generators *)

Module DispatchFacts.
Import JS Decoder Sse Dispatch JSFacts DecoderFacts SseFacts.

Lemma startsWith_prefix (line prefix : jsstring) :
  startsWith line prefix = true ->
  line = (prefix ++ slice line (List.length prefix))%list.
Proof.
  revert line. induction prefix as [|p prefix IH]; intros line H.
  - reflexivity.
  - destruct line as [|c line]; [discriminate|].
    cbn [startsWith] in H. apply andb_true_iff in H. destruct H as [Hc H].
    apply N.eqb_eq in Hc. subst c.
    cbn [List.length slice skipn app]. f_equal. apply IH. assumption.
Qed.

(** The two tests of the loop single out exactly the line [data: [DONE]]. *)
Lemma sentinel_test (line : jsstring) :
  startsWith line (lit "data: ") && str_eqb (slice line 6) (lit "[DONE]")
  = str_eqb line (lit "data: [DONE]").
Proof.
  destruct (startsWith line (lit "data: ")) eqn:Hs.
  - apply startsWith_prefix in Hs.
    change (List.length (lit "data: ")) with 6%nat in Hs.
    rewrite Hs at 2. reflexivity.
  - destruct (str_eqb line (lit "data: [DONE]")) eqn:He; [|reflexivity].
    apply str_eqb_eq in He. subst line. discriminate.
Qed.

Section Loop.

Variable V : Type.
Variable JSON_parse : jsstring -> option V.

(** The [for] loop, in closed form: it reports the payloads in front of
    the first sentinel, and returns when there is a sentinel. *)
Lemma reconciliation_for_closed_form (lines : list jsstring) :
  reconciliation_for JSON_parse lines
  = (map (report JSON_parse) (payloads lines),
     existsb (fun line => str_eqb line (lit "data: [DONE]")) lines).
Proof.
  induction lines as [|line lines IH]; [reflexivity|].
  pose proof (sentinel_test line) as Ht.
  unfold payloads in *. cbn [reconciliation_for before_sentinel existsb].
  destruct (startsWith line (lit "data: ")) eqn:Hs; cbn [andb] in Ht.
  - destruct (str_eqb (slice line 6) (lit "[DONE]")); rewrite <- Ht.
    + reflexivity.
    + cbn [filter orb]. unfold is_data at 1. rewrite Hs. cbn [map].
      rewrite IH. unfold report, and_then.
      destruct (JSON_parse (slice line 6)); reflexivity.
  - rewrite <- Ht. cbn [filter orb]. unfold is_data at 1. rewrite Hs.
    exact IH.
Qed.

End Loop.

(** X1.  In closed form, [streamReconciliation] on a delivered body
    reports, in order, the payload of every [data: ] line in front of the
    first sentinel line: the parsed value when [JSON.parse] accepts it,
    the diagnostic when not.  Nothing is reordered, merged or repeated. *)
Theorem streamReconciliation_closed_form (V : Type)
    (JSON_parse : jsstring -> option V) (chunks : list (list byte)) :
  streamReconciliation JSON_parse (delivered chunks)
  = (map (report JSON_parse) (payloads (body_lines chunks)), Returned).
Proof.
  rewrite streamReconciliation_delivered, reconciliation_for_closed_form.
  reflexivity.
Qed.

(** X2.  Lines that do not start with [data: ] (blank keep-alive lines,
    comments, other fields, [data:] without the space) are inert:
    dropping them changes neither what the loop reports nor whether it
    returns. *)
Theorem reconciliation_for_inert_lines (V : Type)
    (JSON_parse : jsstring -> option V) (lines : list jsstring) :
  reconciliation_for JSON_parse (filter is_data lines)
  = reconciliation_for JSON_parse lines.
Proof.
  induction lines as [|line lines IH]; [reflexivity|].
  cbn [filter]. unfold is_data at 1.
  destruct (startsWith line (lit "data: ")) eqn:Hs;
    cbn [reconciliation_for]; rewrite Hs; [|exact IH].
  rewrite IH. reflexivity.
Qed.

(** X3.  What has been reported is never taken back: the trace for the
    chunks received so far is a prefix of the trace for any longer
    delivery. *)
Theorem streamReconciliation_prefix (V : Type)
    (JSON_parse : jsstring -> option V) (chunks more : list (list byte)) :
  exists rest : list (effect V),
    fst (streamReconciliation JSON_parse (delivered (chunks ++ more)))
    = (fst (streamReconciliation JSON_parse (delivered chunks)) ++ rest)%list.
Proof.
  rewrite !streamReconciliation_delivered. cbn [fst].
  unfold body_lines, body_text.
  rewrite concat_app, decode_app.
  destruct (decode new_TextDecoder (List.concat chunks)) as [d1 text1].
  destruct (decode d1 (List.concat more)) as [d2 text2]. cbn [snd].
  rewrite complete_lines_app, reconciliation_for_app.
  destruct (reconciliation_for JSON_parse (complete_lines text1))
    as [trace returned].
  cbn [fst snd]. destruct returned; cbn [fst].
  - exists []. rewrite app_nil_r. reflexivity.
  - eexists. reflexivity.
Qed.

(** X4.  Once a sentinel line has been received, the reader is not read
    again: whatever chunks follow, the result is the same. *)
Theorem streamReconciliation_closed_by_sentinel (V : Type)
    (JSON_parse : jsstring -> option V) (chunks more : list (list byte)) :
  In (lit "data: [DONE]") (body_lines chunks) ->
  streamReconciliation JSON_parse (delivered (chunks ++ more))
  = streamReconciliation JSON_parse (delivered chunks).
Proof.
  intros Hin. rewrite !streamReconciliation_delivered. f_equal.
  unfold body_lines, body_text in *.
  rewrite concat_app, decode_app.
  destruct (decode new_TextDecoder (List.concat chunks)) as [d1 text1].
  destruct (decode d1 (List.concat more)) as [d2 text2]. cbn [snd] in *.
  rewrite complete_lines_app, reconciliation_for_app.
  rewrite (reconciliation_for_closed_form V JSON_parse (complete_lines text1)).
  cbn [snd fst].
  assert (existsb (fun line => str_eqb line (lit "data: [DONE]"))
            (complete_lines text1) = true) as E.
  { apply existsb_exists. exists (lit "data: [DONE]"). split; [assumption|].
    apply str_eqb_eq. reflexivity. }
  rewrite E. reflexivity.
Qed.

Lemma streamReconciliation_closed_by_sentinel_witness :
  streamReconciliation Json.JSON_parse
    (delivered ([Samples.bytes "data: {'type':'thought','data':'a'}|data: [DONE]|"]
                ++ [Samples.bytes "data: {'type':'thought','data':'b'}|"]))
  = ([Yield (Samples.thought "a")], Returned).
Proof.
  rewrite streamReconciliation_closed_by_sentinel.
  - vm_compute. reflexivity.
  - vm_compute. right. left. reflexivity.
Defined.



Lemma join_split (s : jsstring) :
  join (complete_lines s) (partial_line s) = s.
Proof.
  unfold join, complete_lines, partial_line.
  induction s as [|c s IH]; [reflexivity|].
  pose proof (split_not_nil s) as Hne.
  cbn [split]. destruct (N.eqb c LF) eqn:Hc.
  - apply N.eqb_eq in Hc. subst c.
    rewrite removelast_cons, last_cons by assumption.
    cbn [map List.concat app]. rewrite IH. reflexivity.
  - destruct (split s) as [|piece pieces]; [congruence|].
    destruct pieces as [|piece' pieces].
    + cbn [removelast last map List.concat app] in *. rewrite IH. reflexivity.
    + rewrite (removelast_cons piece) in IH by discriminate.
      rewrite (last_cons piece) in IH by discriminate.
      rewrite (removelast_cons (c :: piece)), (last_cons (c :: piece))
        by discriminate.
      cbn [map List.concat] in IH. cbn [map List.concat app].
      f_equal. exact IH.
Qed.

(** X6.  [buffer.split('\n')] followed by [lines.pop() || ''] loses and
    adds nothing: the lines, each with its line feed back, followed by
    the new buffer, are the old buffer; and neither a line nor the new
    buffer contains a line feed. *)
Theorem split_pop_round_trip (buffer : jsstring) :
  let '(lines, popped) := pop (split buffer) in
  join lines (or_empty popped) = buffer
  /\ Forall (fun line => ~ In LF line) lines
  /\ ~ In LF (or_empty popped).
Proof.
  rewrite pop_split, or_empty_Some. repeat split.
  - apply join_split.
  - pose proof (split_pieces_no_LF buffer) as H.
    rewrite split_decompose in H. apply Forall_app in H. tauto.
  - apply partial_line_no_LF.
Qed.

End DispatchFacts.

(** ** Histories of the session provider *)

Module GuardFacts.
Import Types Session Guards.

(** X7.  [refreshSession] is idempotent: a second refresh that meets the
    same probe result changes nothing. *)
Theorem refreshSession_idempotent (p : probe) (s : state) :
  refreshSession p (refreshSession p s) = refreshSession p s.
Proof.
  unfold refreshSession. destruct (checkHealth p) as [health|reason].
  - destruct (has_session health); reflexivity.
  - reflexivity.
Qed.

(** X8.  A refresh whose probe succeeds with [has_session = true] moves
    the provider to online with a session and leaves the cached summary
    as it was, present or not: the probe carries no summary. *)
Theorem refreshSession_has_session (s : state) (status : string)
    (file : option string) :
  let s' := refreshSession (Answer true (Some (mk_health status true file))) s in
  Online_HasSession s' /\ sessionData s' = sessionData s.
Proof. unfold Online_HasSession. cbn. auto. Qed.

(** X9.  An outage hides an adopted summary without losing it: after
    [setSessionData(data)], a failed refresh and then a successful one
    that reports a session, the provider is online with that summary. *)
Theorem refreshSession_recovers_summary (s : state)
    (data : ReconciliationSummary) (outage : probe)
    (status : string) (file : option string) :
  probe_fails outage ->
  refreshSession (Answer true (Some (mk_health status true file)))
    (refreshSession outage (setSessionData (Some data) s))
  = mk_state true (Some data) true.
Proof.
  intros H. destruct outage as [|o json]; cbn in H.
  - reflexivity.
  - subst o. reflexivity.
Qed.

Lemma refreshSession_recovers_summary_witness :
  refreshSession (Answer true (Some (mk_health "ok" true None)))
    (refreshSession NetworkError (setSessionData (Some Samples.summary_a) initial))
  = mk_state true (Some Samples.summary_a) true.
Proof. apply refreshSession_recovers_summary. exact I. Defined.

(** The context's [setSessionData] overwrites: only the last call counts,
    and [setSessionData(null)] clears the summary and the flag without
    touching [backendOnline]. *)
Lemma setSessionData_last_wins (d1 d2 : option ReconciliationSummary) (s : state) :
  setSessionData d2 (setSessionData d1 s) = setSessionData d2 s.
Proof. reflexivity. Qed.

Lemma apply_consistent (o : op) (s : state) : consistent s -> consistent (apply o s).
Proof.
  intros [H1 H2]. destruct s as [has data online]. cbn in H1, H2.
  destruct o as [p|d]; unfold consistent.
  - unfold apply, refreshSession.
    destruct (checkHealth p) as [health|reason]; cbn.
    + destruct (has_session health); cbn; split; auto; congruence.
    + split; congruence.
  - destruct d; cbn; split; congruence.
Qed.

Lemma run_consistent (ops : list op) (s : state) : consistent s -> consistent (run ops s).
Proof.
  revert s. induction ops as [|o ops IH]; intros s H; [assumption|].
  cbn. apply IH, apply_consistent, H.
Qed.

(** X10.  Whatever the history of refreshes and [setSessionData] calls
    since the provider was mounted: while the backend is online a cached
    summary is always flagged by [hasSession], and a session flagged
    without a summary occurs only while online. *)
Theorem provider_consistent (ops : list op) :
  let s := run ops initial in
  (backendOnline s = true -> sessionData s <> None -> hasSession s = true)
  /\ (hasSession s = true -> sessionData s = None -> backendOnline s = true).
Proof.
  apply (run_consistent ops initial). split; cbn; congruence.
Qed.

Lemma provider_consistent_witness :
  hasSession (run [Refresh NetworkError; SetSessionData (Some Samples.summary_a);
                   Refresh (Answer true (Some (mk_health "ok" true None)))]
                initial) = true.
Proof.
  apply (proj1 (provider_consistent
                  [Refresh NetworkError; SetSessionData (Some Samples.summary_a);
                   Refresh (Answer true (Some (mk_health "ok" true None)))])).
  - reflexivity.
  - cbn. discriminate.
Defined.

(** X11.  In every state the provider can reach, [Visualize] shows its
    dashboard, and the navigation bar its session badge, exactly when the
    backend is online and a summary is cached. *)
Theorem dashboard_iff_online_summary (ops : list op) :
  let s := run ops initial in
  (Visualize s = Content <->
     backendOnline s = true /\ sessionData s <> None)
  /\ ((exists name, Layout s = SessionActive name) <->
     backendOnline s = true /\ sessionData s <> None).
Proof.
  cbn zeta. pose proof (provider_consistent ops) as [H1 _]. cbn zeta in H1.
  destruct (run ops initial) as [has data online]. cbn in H1.
  unfold Visualize, Layout. cbn.
  destruct online; cbn.
  - destruct data as [d|]; cbn.
    + rewrite H1 by congruence. cbn. split; split; intros _.
      * split; congruence.
      * reflexivity.
      * split; congruence.
      * eexists. reflexivity.
    + rewrite orb_true_r. split; split.
      * discriminate.
      * intros [_ H]. congruence.
      * intros [name H]. destruct has; discriminate.
      * intros [_ H]. congruence.
  - split; split.
    + discriminate.
    + intros [H _]. discriminate.
    + intros [name H]. discriminate.
    + intros [H _]. discriminate.
Qed.

Lemma dashboard_iff_online_summary_witness :
  Visualize (run [SetSessionData (Some Samples.summary_a)] initial) = Content.
Proof.
  apply (proj1 (dashboard_iff_online_summary
                  [SetSessionData (Some Samples.summary_a)])).
  split; [reflexivity | cbn; discriminate].
Defined.

Lemma run_refreshes_no_summary (probes : list probe) (s : state) :
  sessionData s = None -> sessionData (run (map Refresh probes) s) = None.
Proof.
  revert s. induction probes as [|p probes IH]; intros s H; [assumption|].
  cbn. apply IH. unfold refreshSession.
  destruct (checkHealth p) as [health|reason]; cbn; [|assumption].
  destruct (has_session health); cbn; [assumption|reflexivity].
Qed.

(** X12.  Refreshing never produces a summary: after any number of
    refreshes since mounting, whatever their probes met, no summary is
    cached and [Visualize] does not show its dashboard.  A probe that
    reports a session opens [ZenChat] and starts [runVizAgent] all the
    same. *)
Theorem refresh_alone_keeps_dashboard_locked (probes : list probe) :
  let s := run (map Refresh probes) initial in
  sessionData s = None
  /\ Visualize s <> Content
  /\ (forall status file,
        let s' := refreshSession (Answer true (Some (mk_health status true file))) s in
        ZenChat s' = Content /\ starts_runVizAgent s' = true
        /\ Visualize s' = Locked).
Proof.
  cbn zeta.
  pose proof (run_refreshes_no_summary probes initial eq_refl) as H.
  destruct (run (map Refresh probes) initial) as [has data online].
  cbn in H. subst data. repeat split.
  - unfold Visualize. cbn. destruct online; cbn; [|discriminate].
    rewrite orb_true_r. discriminate.
Qed.

(** X13.  After a refresh whose probe fails, every page shows its offline
    notice and the navigation bar the offline badge, whatever was on
    screen before. *)
Theorem failed_refresh_shows_offline (s : state) (p : probe) :
  probe_fails p ->
  let s' := refreshSession p s in
  UploadReconcile s' = BackendOffline
  /\ Visualize s' = BackendOffline
  /\ ZenChat s' = BackendOffline
  /\ Layout s' = OfflineBadge
  /\ starts_runVizAgent s' = false.
Proof.
  intros H. destruct p as [|o json]; cbn in H.
  - repeat split.
  - subst o. repeat split.
Qed.

Lemma failed_refresh_shows_offline_witness :
  Visualize (refreshSession (Answer false None)
               (mk_state true (Some Samples.summary_a) true))
  = BackendOffline.
Proof.
  apply (failed_refresh_shows_offline
           (mk_state true (Some Samples.summary_a) true) (Answer false None)).
  reflexivity.
Defined.

End GuardFacts.

(** ** The upload page *)

Module UploadFacts.
Import JS Json Sse JSValue Upload JSFacts.

Lemma last_cons_default {A} (l : list A) (x d : A) : last (x :: l) d = last l x.
Proof.
  revert x d. induction l as [|y l IH]; intros x d; [reflexivity|].
  change (last (x :: y :: l) d) with (last (y :: l) d).
  rewrite !IH. reflexivity.
Qed.

Lemma get_not_null (event : value) (key : jsstring) :
  event <> JNull -> exists x, get (Of event) key = Some x.
Proof.
  intros H. destruct event; try (eexists; reflexivity). congruence.
Qed.

Lemma thought_not_summary (type : jsval) :
  is_string type (lit "thought") = true -> is_string type (lit "summary") = false.
Proof.
  destruct type as [|[]]; try discriminate. cbn [is_string].
  intros H. apply str_eqb_eq in H. subst s. reflexivity.
Qed.

(** The loop body on an event that is not [null], by the tests that
    classify it. *)
Lemma reconcile_event_not_null (event : value) (w : world) :
  event <> JNull ->
  reconcile_event event w
  = Some (if has_type "thought" event then
            on_page (setLogs (fun prev => prev ++ [Data (data_of event)])) w
          else if has_type "summary" event then
            mk_world (setSummary (data_of event) (the_page w))
              (adopted w ++ [data_of event]) (console w)
          else w).
Proof.
  intros Hnull.
  destruct (get_not_null event (lit "type") Hnull) as [type Htype].
  destruct (get_not_null event (lit "data") Hnull) as [data Hdata].
  unfold reconcile_event, has_type, data_of. rewrite Htype, Hdata.
  destruct (is_string type (lit "thought")); [reflexivity|].
  destruct (is_string type (lit "summary")); reflexivity.
Qed.

Lemma has_type_exclusive (event : value) :
  has_type "thought" event = true -> has_type "summary" event = false.
Proof.
  unfold has_type. destruct (get (Of event) (lit "type")); [|discriminate].
  apply thought_not_summary.
Qed.

(** The loop over a trace none of whose events is [null]. *)
Lemma reconcile_loop_healthy (trace : list (effect value)) :
  forall w : world,
    Forall (fun event => event <> JNull) (events trace) ->
    reconcile_loop trace w
    = (mk_world
         (mk_page (selectedFile (the_page w)) (isProcessing (the_page w))
            (logs (the_page w)
             ++ map Data (map data_of (filter (has_type "thought") (events trace))))
            (last (map data_of (filter (has_type "summary") (events trace)))
               (summary (the_page w))))
         (adopted w
          ++ map data_of (filter (has_type "summary") (events trace)))
         (console w ++ console_of trace),
       None).
Proof.
  induction trace as [|e trace IH]; intros [[sel proc lg sm] ad co] H.
  - cbn. rewrite !app_nil_r. reflexivity.
  - destruct e as [event|data].
    + cbn [events] in H. inversion H as [|? ? Hnull Hrest]; subst.
      cbn [reconcile_loop events filter console_of flat_map app].
      rewrite (reconcile_event_not_null event _ Hnull).
      destruct (has_type "thought" event) eqn:Ht.
      * rewrite (has_type_exclusive event Ht).
        rewrite IH by assumption.
        cbn [on_page setLogs the_page logs summary selectedFile isProcessing
             adopted console map].
        rewrite <- app_assoc. reflexivity.
      * destruct (has_type "summary" event) eqn:Hs.
        -- rewrite IH by assumption.
           cbn [setSummary the_page logs summary selectedFile isProcessing
                adopted console map].
           rewrite <- app_assoc. cbn [app].
           rewrite last_cons_default. reflexivity.
        -- rewrite IH by assumption. reflexivity.
    + cbn [reconcile_loop events console_of flat_map].
      rewrite IH by assumption.
      cbn [the_page logs summary selectedFile isProcessing adopted console].
      rewrite <- app_assoc. reflexivity.
Qed.

Lemma reconcile_loop_app (t1 t2 : list (effect value)) :
  forall w : world,
    reconcile_loop (t1 ++ t2) w
    = match reconcile_loop t1 w with
      | (w1, None) => reconcile_loop t2 w1
      | (w1, Some e) => (w1, Some e)
      end.
Proof.
  induction t1 as [|e t1 IH]; intros w; [reflexivity|].
  destruct e as [event|data]; cbn [app reconcile_loop].
  - destruct (reconcile_event event w); [apply IH | reflexivity].
  - apply IH.
Qed.

Section Handlers.

Variable JSON_parse : jsstring -> option value.

(** X14.  [handleReconcile] on a delivered body none of whose events is
    [null]: the log shows the [data] of the thoughts, in order, and
    nothing else; every summary event, and no other, reaches the
    context's [setSessionData], with the value shown on the page; events
    of any other type are ignored; the page ends idle with its file still
    selected. *)
Theorem handleReconcile_healthy (chunks : list (list byte)) (w : world)
    (file : File) :
  selectedFile (the_page w) = Some file ->
  let trace := fst (streamReconciliation JSON_parse (delivered chunks)) in
  Forall (fun event => event <> JNull) (events trace) ->
  let w' := handleReconcile JSON_parse (delivered chunks) w in
  logs (the_page w')
    = map Data (map data_of (filter (has_type "thought") (events trace)))
  /\ adopted w'
    = (adopted w ++ map data_of (filter (has_type "summary") (events trace)))%list
  /\ summary (the_page w')
    = last (map data_of (filter (has_type "summary") (events trace))) null
  /\ console w' = (console w ++ console_of trace)%list
  /\ isProcessing (the_page w') = false
  /\ selectedFile (the_page w') = Some file.
Proof.
  intros Hfile trace Hhealthy. unfold handleReconcile. rewrite Hfile.
  subst trace. revert Hhealthy.
  rewrite SseFacts.streamReconciliation_delivered. cbn [fst]. intros Hhealthy.
  rewrite reconcile_loop_healthy by assumption.
  cbn. rewrite Hfile. repeat split.
Qed.

(** X15.  An event [null] stops the page: the property read throws, the
    generator is closed, and whatever it would have yielded or logged
    afterwards is lost; the log ends with the error line. *)
Theorem handleReconcile_null_event (chunks : list (list byte)) (w : world)
    (file : File) (before after : list (effect value)) :
  selectedFile (the_page w) = Some file ->
  fst (streamReconciliation JSON_parse (delivered chunks))
    = (before ++ Yield JNull :: after)%list ->
  Forall (fun event => event <> JNull) (events before) ->
  let w' := handleReconcile JSON_parse (delivered chunks) w in
  logs (the_page w')
    = (map Data (map data_of (filter (has_type "thought") (events before)))
       ++ [Failure TypeError])%list
  /\ adopted w'
    = (adopted w ++ map data_of (filter (has_type "summary") (events before)))%list
  /\ console w' = (console w ++ console_of before)%list
  /\ isProcessing (the_page w') = false.
Proof.
  intros Hfile Htrace Hhealthy. unfold handleReconcile. rewrite Hfile.
  destruct (streamReconciliation JSON_parse (delivered chunks))
    as [trace completion].
  cbn [fst] in Htrace. subst trace.
  rewrite reconcile_loop_app, reconcile_loop_healthy by assumption.
  cbn. repeat split.
Qed.

(** X16.  When the response is not [ok], [handleReconcile] shows one
    error line and nothing else: the earlier log and summary are gone,
    [setSessionData] is not called, and the page ends idle. *)
Theorem handleReconcile_failed_response (b : option (list (list byte)))
    (w : world) (file : File) :
  selectedFile (the_page w) = Some file ->
  handleReconcile JSON_parse (mk_response false b) w
  = mk_world
      (mk_page (Some file) false [Failure (Error "Reconciliation failed")] null)
      (adopted w) (console w).
Proof.
  intros Hfile. destruct w as [[sel proc lg sm] ad co].
  cbn in Hfile. subst sel. reflexivity.
Qed.

End Handlers.

Lemma handleReconcile_healthy_witness :
  let w := mk_world (handleFileSelect (mk_file (lit "a.csv") 10) initial) [] [] in
  adopted (handleReconcile Json.JSON_parse
    (delivered
       [Samples.bytes "data: {'type':'thought','data':'step1'}|data: {'type':'summ";
        Samples.bytes "ary','data':{'filename':'a.csv'}}|data: {'type':'other'}|data: [DONE]|"])
    w)
  = [Of (JObject [(lit "filename", JString (lit "a.csv"))])].
Proof.
  cbn zeta.
  refine (eq_trans (proj1 (proj2 (handleReconcile_healthy Json.JSON_parse _
                     (mk_world (handleFileSelect (mk_file (lit "a.csv") 10) initial) [] [])
                     (mk_file (lit "a.csv") 10) eq_refl _))) _).
  - vm_compute. repeat constructor; discriminate.
  - vm_compute. reflexivity.
Defined.

Lemma handleReconcile_null_event_witness :
  let w := mk_world (handleFileSelect (mk_file (lit "a.csv") 10) initial) [] [] in
  logs (the_page (handleReconcile Json.JSON_parse
    (delivered
       [Samples.bytes "data: {'type':'thought','data':'step1'}|data: null|data: {'type':'thought','data':'step2'}|"])
    w))
  = [Data (Of (JString (lit "step1"))); Failure TypeError].
Proof.
  cbn zeta.
  refine (eq_trans (proj1 (handleReconcile_null_event Json.JSON_parse _
                     (mk_world (handleFileSelect (mk_file (lit "a.csv") 10) initial) [] [])
                     (mk_file (lit "a.csv") 10)
                     [Yield (Samples.thought "step1")]
                     [Yield (Samples.thought "step2")] eq_refl _ _)) _).
  - vm_compute. reflexivity.
  - vm_compute. repeat constructor; discriminate.
  - vm_compute. reflexivity.
Defined.

Lemma handleReconcile_failed_response_witness :
  logs (the_page (handleReconcile Json.JSON_parse (mk_response false None)
    (mk_world (mk_page (Some (mk_file (lit "a.csv") 10)) false
                 [Data (Of (JString (lit "old")))] null) [] [])))
  = [Failure (Error "Reconciliation failed")].
Proof.
  rewrite (handleReconcile_failed_response Json.JSON_parse None _
             (mk_file (lit "a.csv") 10)); reflexivity.
Defined.

Lemma endsWith_spec (s suffix : jsstring) :
  endsWith s suffix = true <-> exists stem, s = (stem ++ suffix)%list.
Proof.
  unfold endsWith. rewrite str_eqb_eq. split.
  - intros H. exists (firstn (List.length s - List.length suffix) s).
    pose proof (firstn_skipn (List.length s - List.length suffix) s) as E.
    rewrite H in E. symmetry. exact E.
  - intros [stem ->]. rewrite length_app.
    replace (List.length stem + List.length suffix - List.length suffix)%nat
      with (List.length stem) by lia.
    apply (slice_app stem suffix).
Qed.

(** X17.  [FileUpload] hands a file to [onFileSelect] exactly when it is
    the first file of the drop or of the picker and its name ends with
    [.csv]; further files of the same drop are never looked at. *)
Theorem offered_iff (files : option (list File)) (file : File) :
  offered files = Some file
  <-> exists rest stem,
        files = Some (file :: rest)
        /\ name file = (stem ++ lit ".csv")%list.
Proof.
  unfold offered. split.
  - destruct files as [[|first rest]|]; try discriminate.
    destruct (endsWith (name first) (lit ".csv")) eqn:E; [|discriminate].
    intros H. inversion H; subst first.
    apply endsWith_spec in E. destruct E as [stem E].
    exists rest, stem. split; [reflexivity | assumption].
  - intros (rest & stem & -> & Hname).
    assert (endsWith (name file) (lit ".csv") = true) as E
      by (apply endsWith_spec; exists stem; assumption).
    rewrite E. reflexivity.
Qed.

Lemma offered_iff_witness :
  Upload.offered (Some [mk_file (lit "a.csv") 10; mk_file (lit "b.csv") 2])
  = Some (mk_file (lit "a.csv") 10).
Proof.
  apply offered_iff.
  exists [mk_file (lit "b.csv") 2], (lit "a"). split; reflexivity.
Defined.






End UploadFacts.

(** ** The visualization agent *)

Module VizFacts.
Import JS Json Sse JSValue Viz.

Section Agent.

Variable is_zero : jsstring -> bool.
Variable Date_now : nat -> N.
Variable JSON_parse : jsstring -> option value.

Lemma viz_event_keeps_plot (k : nat) (event : value) (p p' : page) :
  plots is_zero event = false ->
  viz_event is_zero Date_now k event p = Some p' ->
  plotUrl p' = plotUrl p.
Proof.
  unfold plots, viz_event.
  destruct (get (Of event) (lit "type")) as [type|]; [|discriminate].
  destruct (is_string type (lit "thought")).
  - intros _. destruct (get (Of event) (lit "data")); [|discriminate].
    intros H. inversion H. reflexivity.
  - destruct (is_string type (lit "viz_result")); cbn [andb].
    + destruct (get (Of event) (lit "data")) as [data|]; [|discriminate].
      destruct (get data (lit "success")) as [success|]; [|discriminate].
      intros ->. intros H. inversion H. reflexivity.
    + intros _ H. inversion H. reflexivity.
Qed.

Lemma viz_loop_keeps_plot (trace : list (effect value)) :
  forall (k : nat) (p : page),
    Forall (fun event => plots is_zero event = false) (events trace) ->
    plotUrl (fst (viz_loop is_zero Date_now k trace p)) = plotUrl p.
Proof.
  induction trace as [|e trace IH]; intros k p H; [reflexivity|].
  destruct e as [event|data]; cbn [viz_loop events] in *.
  - inversion H as [|? ? Hev Hrest]; subst.
    destruct (viz_event is_zero Date_now k event p) as [p'|] eqn:E;
      [|reflexivity].
    rewrite IH by assumption.
    exact (viz_event_keeps_plot k event p p' Hev E).
  - apply IH. assumption.
Qed.

(** X19.  [runVizAgent] replaces the plot address only on an event of
    type [viz_result] whose [data.success] is truthy: when the stream has
    no such event, whether it ends well, throws or is cut short by a bad
    event, the address stays as it was; and the agent always ends with
    [vizRunning] off. *)
Theorem runVizAgent_keeps_plot (response : Response) (p : page) :
  Forall (fun event => plots is_zero event = false)
    (events (fst (streamVisualization JSON_parse response))) ->
  let p' := runVizAgent is_zero Date_now JSON_parse response p in
  plotUrl p' = plotUrl p /\ vizRunning p' = false.
Proof.
  intros H. unfold runVizAgent.
  destruct (streamVisualization JSON_parse response) as [trace completion].
  cbn [fst] in H.
  pose proof (viz_loop_keeps_plot trace 0
                (setLogs (fun _ => []) (setVizRunning true p)) H) as Hk.
  destruct (viz_loop is_zero Date_now 0 trace _) as [p1 failure].
  cbn [fst] in Hk. cbn in Hk.
  destruct failure; [|destruct completion]; cbn; auto.
Qed.

End Agent.

Lemma runVizAgent_keeps_plot_witness :
  plotUrl (runVizAgent (fun _ => false) (fun _ => 7%N) Json.JSON_parse
    (delivered
       [Samples.bytes "data: {'type':'thought','data':'plotting'}|data: {'type':'viz_result','data':{'success':false}}|"])
    (mk_page [] false "http://localhost:8000/plot?t=1"))
  = "http://localhost:8000/plot?t=1"%string.
Proof.
  refine (proj1 (runVizAgent_keeps_plot (fun _ => false) (fun _ => 7%N)
                   Json.JSON_parse _ _ _)).
  vm_compute. repeat constructor.
Defined.

(** A successful [viz_result] does replace the address, with the clock
    reading in it. *)
Example runVizAgent_sets_plot :
  plotUrl (runVizAgent (fun _ => false) (fun _ => 1234%N) Json.JSON_parse
    (delivered
       [Samples.bytes "data: {'type':'viz_result','data':{'success':true}}|data: [DONE]|"])
    initial)
  = "http://localhost:8000/plot?t=1234"%string.
Proof. vm_compute. reflexivity. Qed.

End VizFacts.

(** ** The chat and the insight card *)

Module ChatFacts.
Import Types Ask Chat.
Local Open Scope N_scope.

Lemma trimStart_blank (s : string) : blank s = true -> trimStart s = EmptyString.
Proof.
  induction s as [|a s IH]; [reflexivity|].
  cbn. destruct (is_space a); [exact IH | discriminate].
Qed.

Lemma trimStart_not_blank (s : string) :
  blank s = false ->
  exists a t, trimStart s = String a t /\ is_space a = false.
Proof.
  induction s as [|a s IH]; [discriminate|].
  cbn. destruct (is_space a) eqn:E; cbn.
  - exact IH.
  - intros _. exists a, s. auto.
Qed.

Lemma trimEnd_not_empty (a : ascii) (t : string) :
  is_space a = false -> is_empty (trimEnd (String a t)) = false.
Proof.
  intros H. cbn. destruct (trimEnd t); [rewrite H|]; reflexivity.
Qed.

(** [!question.trim()] holds exactly for the questions made of white
    space only. *)
Lemma trim_empty_iff_blank (s : string) : is_empty (trim s) = blank s.
Proof.
  unfold trim. destruct (blank s) eqn:E.
  - rewrite trimStart_blank by assumption. reflexivity.
  - destruct (trimStart_not_blank s E) as (a & t & -> & Ha).
    apply trimEnd_not_empty. assumption.
Qed.

(** X20.  [handleSubmit] does nothing at all (no message, no request)
    exactly when the question is empty or white space only, or while an
    earlier question is still loading. *)
Theorem handleSubmit_ignored_iff (question : string) (now later : N)
    (b : backend) (s : chat) :
  handleSubmit question now later b s = Ignored
  <-> blank question = true \/ isLoading s = true.
Proof.
  unfold handleSubmit, handleSubmit_sent. rewrite trim_empty_iff_blank.
  destruct (blank question); cbn [orb].
  - split; auto.
  - destruct (isLoading s).
    + split; auto.
    + destruct (handleSubmit_settled _ later _); split;
        try discriminate; intros [H|H]; discriminate.
Qed.

Lemma handleSubmit_ignored_iff_witness :
  handleSubmit "  " 1 2 Silent initial = Ignored.
Proof. apply handleSubmit_ignored_iff. left. reflexivity. Defined.

(** X21.  A question that is taken while the backend is not silent ends
    in exactly two new messages after those already shown: the question
    as it was typed, then the answer or the failure notice; the input is
    emptied and loading is off.  An answer is shown however long it took
    to arrive. *)
Theorem handleSubmit_exchange (question : string) (now later : N)
    (b : backend) (s : chat) :
  blank question = false -> isLoading s = false -> b <> Silent ->
  exists reply,
    handleSubmit question now later b s
    = Done (mk_chat (messages s ++ [UserMessage now question; reply]) "" false)
    /\ (forall after response,
          b = Answers after true (Some response) ->
          reply = AssistantMessage (later + 1) response)
    /\ (forall after json,
          b = Answers after false json ->
          reply = AssistantFailure (later + 1) "Question failed").
Proof.
  intros Hq Hl Hb. unfold handleSubmit, handleSubmit_sent.
  rewrite trim_empty_iff_blank, Hq, Hl. cbn [orb].
  unfold askQuestion, fetch. cbn [signal askQuestion_request].
  destruct b as [| |after o json]; [|congruence|].
  - eexists. cbn. rewrite <- app_assoc. split; [reflexivity|].
    split; intros; discriminate.
  - destruct o; [destruct json as [response|]|]; cbn;
      rewrite <- app_assoc; eexists; (split; [reflexivity|]);
      split; intros ? ? H; inversion H; reflexivity.
Qed.

Lemma handleSubmit_exchange_witness :
  exists reply,
    handleSubmit "How many rows?" 10 20
      (Answers 60000 true (Some (mk_chat_response (Some "90"%string) true))) initial
    = Done (mk_chat [UserMessage 10 "How many rows?"; reply] "" false).
Proof.
  destruct (handleSubmit_exchange "How many rows?" 10 20
              (Answers 60000 true (Some (mk_chat_response (Some "90"%string) true)))
              initial eq_refl eq_refl ltac:(discriminate))
    as (reply & H & _).
  exists reply. exact H.
Defined.

(** X22.  With a silent backend a question that is taken never comes
    back: the chat stays loading, and from then on every [handleSubmit],
    whatever the question, is ignored. *)
Theorem handleSubmit_silent_backend (question : string) (now later : N)
    (s : chat) :
  blank question = false -> isLoading s = false ->
  exists sent,
    handleSubmit question now later Silent s = Waiting sent
    /\ isLoading sent = true
    /\ (forall question' now' later' b',
          handleSubmit question' now' later' b' sent = Ignored).
Proof.
  intros Hq Hl. unfold handleSubmit at 1. unfold handleSubmit_sent.
  rewrite trim_empty_iff_blank, Hq, Hl. cbn.
  eexists. split; [reflexivity|]. split; [reflexivity|].
  intros question' now' later' b'.
  apply handleSubmit_ignored_iff. right. reflexivity.
Qed.

Lemma handleSubmit_silent_backend_witness :
  exists sent,
    handleSubmit "How many rows?" 10 20 Silent initial = Waiting sent
    /\ isLoading sent = true.
Proof.
  destruct (handleSubmit_silent_backend "How many rows?" 10 20 initial
              eq_refl eq_refl) as (sent & H1 & H2 & _).
  exists sent. split; assumption.
Defined.

(** X23.  Clearing the conversation while a question is out does not
    cancel it: when the answer arrives it is appended to the emptied
    transcript, alone, without its question. *)
Theorem clear_while_waiting (question : string) (now later : N)
    (s sent : chat) (response : ChatResponse) :
  handleSubmit_sent question now s = Some sent ->
  handleSubmit_settled (Fulfilled response) later (handleClearConversation sent)
  = Some (mk_chat [AssistantMessage (later + 1) response] "" false).
Proof.
  unfold handleSubmit_sent.
  destruct (is_empty (trim question) || isLoading s); [discriminate|].
  intros H. inversion H. reflexivity.
Qed.

Lemma clear_while_waiting_witness :
  handleSubmit_settled (Fulfilled (mk_chat_response (Some "90"%string) true)) 20
    (handleClearConversation (mk_chat [UserMessage 10 "q"] "" true))
  = Some (mk_chat [AssistantMessage 21 (mk_chat_response (Some "90"%string) true)]
            "" false).
Proof. apply (clear_while_waiting "q" 10 20 initial). reflexivity. Defined.

(** X24.  [InsightCard.fetchInsight] with a summary always runs to its
    end, whatever the backend does: the card stops loading, and either
    the error flag is set and the text and [fetched] are as before, or
    the error flag is clear, [fetched] is set and the text is the answer
    of the response (empty when it has none). *)
Theorem fetchInsight_settles (data : ReconciliationSummary) (b : backend)
    (c : card) :
  exists c',
    fetchInsight (Some data) b c = Fulfilled c'
    /\ loading c' = false
    /\ ((error c' = true /\ insight c' = insight c /\ fetched c' = fetched c)
        \/ (error c' = false /\ fetched c' = true
            /\ exists after response,
                 b = Answers after true (Some response)
                 /\ (after < 25000)%N
                 /\ insight c' = answer_or_empty response)).
Proof.
  unfold fetchInsight, fetch. cbn [signal fetchInsight_request].
  destruct b as [| |after o json].
  - eexists. split; [reflexivity|]. cbn. auto.
  - eexists. split; [reflexivity|]. cbn. auto.
  - destruct (after <? 25000) eqn:Hlt.
    + destruct o; cbn [negb].
      * destruct json as [response|].
        -- eexists. split; [reflexivity|]. cbn. split; [reflexivity|].
           right. repeat split. exists after, response.
           apply N.ltb_lt in Hlt. auto.
        -- eexists. split; [reflexivity|]. cbn. auto.
      * eexists. split; [reflexivity|]. cbn. auto.
    + eexists. split; [reflexivity|]. cbn. auto.
Qed.

End ChatFacts.
